(** * A shallow embedding of [mobile_notifications/android/baseapi.py]

    The module is the base class of a client for the FCM push service.  It
    builds the JSON payload of a notification ([parse_payload]), cuts a
    recipient list into bulk-sized pieces ([registration_id_chunks]), posts
    payloads and classifies the HTTP status of the answer ([send_request]),
    and reads the counters out of a successful answer ([parse_response]).

    Python values are embedded as the inductive type [PyVal]; dictionaries
    are finite maps with string keys; an exception is the [Raise] case of
    [Outcome]; the network is an explicit function from the history of
    requests to the next answer, threaded through [send_request] as state.
    The built-ins are read as Python 3 has them: one unbounded integer type,
    of which [bool] is a subclass. *)

From Stdlib Require Import ZArith Ascii String List SpecFloat.
From stdpp Require Import gmap strings list fin_maps.

#[local] Set Warnings "-register-all".
#[local] Open Scope string_scope.
#[local] Open Scope nat_scope.

(** ** Python values *)

(** The values that reach this module: [None], booleans, integers, floats
    (IEEE doubles, in the Standard Library's [spec_float] form), strings,
    lists and dictionaries.  Dictionary keys are strings, as the keys of
    keyword arguments and of JSON objects are. *)
Inductive PyVal : Type :=
  | PNone
  | PBool (b : bool)
  | PInt (z : Z)
  | PFloat (f : spec_float)
  | PStr (s : string)
  | PList (l : list PyVal)
  | PDict (d : gmap string PyVal).

(** Python's truth value of an object, which every [if x:] of the source
    tests: [None], [False], zero, and empty strings and containers are
    false, everything else is true. *)
Definition truthy (v : PyVal) : bool :=
  match v with
  | PNone => false
  | PBool b => b
  | PInt z => negb (z =? 0)%Z
  | PFloat (S754_zero _) => false
  | PFloat _ => true
  | PStr s => negb (String.eqb s "")
  | PList l => negb (Nat.eqb (length l) 0)
  | PDict d => negb (Nat.eqb (size d) 0)
  end.

(** [isinstance(v, int)]: [bool] is a subclass of [int] in Python. *)
Definition isinstance_int (v : PyVal) : bool :=
  match v with
  | PInt _ | PBool _ => true
  | _ => false
  end.

(** [isinstance(v, dict)]. *)
Definition isinstance_dict (v : PyVal) : bool :=
  match v with
  | PDict _ => true
  | _ => false
  end.

(** ** Exceptions *)

(** Modelled from the spec: the module [errors], imported by
    [from .errors import *], is not part of the sources at hand.  Its four
    exception classes are named by the code that raises them and by the
    spec's section on error kinds; each carries its message.  The remaining
    constructors are the built-in exceptions that the modelled operations
    can raise, and [TransportError] stands for whatever the HTTP client
    raises when no answer arrives. *)
Inductive PyErr : Type :=
  | AuthenticationError (msg : string)
  | InvalidDataError (msg : string)
  | InternalPackageError (msg : string)
  | FCMServerError (msg : string)
  | ValueError
  | AttributeError
  | IndexError
  | TransportError.

(** The result of running a piece of Python: a value or a raised
    exception. *)
Inductive Outcome (A : Type) : Type :=
  | Return (a : A)
  | Raise (e : PyErr).
Arguments Return {A} a.
Arguments Raise {A} e.

#[global] Instance Outcome_ret : MRet Outcome := λ A a, Return a.
#[global] Instance Outcome_bind : MBind Outcome := λ A B f m,
  match m with
  | Return a => f a
  | Raise e => Raise e
  end.

(** ** Class constants *)

Definition CONTENT_TYPE : string := "application/json".
Definition FCM_END_POINT : string := "https://fcm.googleapis.com/fcm/send".
Definition FCM_MAX_RECIPIENTS : nat := 1000.
Definition FCM_LOW_PRIORITY : string := "normal".
Definition FCM_HIGH_PRIORITY : string := "high".

(** ** [registration_id_chunks] *)

(** [xrange(start, stop, step)] for a positive step, as the list of its
    elements.  The recursion is on a counter that starts at [stop - start],
    which the walk cannot exhaust because every element it emits is below
    [stop] and the next one is at least one further. *)
Fixpoint xrange_from (fuel start stop step : nat) : list nat :=
  match fuel with
  | O => []
  | S fuel' =>
      if start <? stop
      then start :: xrange_from fuel' (start + step) stop step
      else []
  end.

Definition xrange (start stop step : nat) : list nat :=
  xrange_from (stop - start) start stop step.

(** The slice [l[i:j]]; Python clamps both ends to the list. *)
Definition slice {A} (l : list A) (i j : nat) : list A :=
  take (j - i) (drop i l).

(** The generator, as the list of the chunks it yields in order. *)
Definition registration_id_chunks {A} (registration_ids : list A) : list (list A) :=
  (λ i, slice registration_ids i (i + FCM_MAX_RECIPIENTS))
    <$> xrange 0 (length registration_ids) FCM_MAX_RECIPIENTS.

(** [ceil (n / k)] on natural numbers. *)
Definition ceil_div (n k : nat) : nat := (n + (k - 1)) / k.

(** ** [parse_payload] *)

(** The parameters of [parse_payload], with the names of the source.  The
    recipient list is [None] or a list of registration ids, the topic
    name is [None] or a string; every other named parameter is an arbitrary
    value, since the function only tests its truth value (and, for two of
    them, its class).  [extra_kwargs] is the dictionary that Python builds
    from the keyword arguments that match no named parameter. *)
Record PayloadArgs : Type := {
  registration_ids : option (list string);
  topic_name : option string;
  message_body : PyVal;
  message_title : PyVal;
  message_icon : PyVal;
  sound : PyVal;
  condition : PyVal;
  collapse_key : PyVal;
  delay_while_idle : PyVal;
  time_to_live : PyVal;
  restricted_package_name : PyVal;
  low_priority : PyVal;
  dry_run : PyVal;
  data_message : PyVal;
  click_action : PyVal;
  badge : PyVal;
  color : PyVal;
  tag : PyVal;
  body_loc_key : PyVal;
  body_loc_args : PyVal;
  title_loc_key : PyVal;
  title_loc_args : PyVal;
  extra_kwargs : gmap string PyVal
}.

(** The call [parse_payload()]: every parameter at the default of the
    signature. *)
Definition default_args : PayloadArgs := {|
  registration_ids := None;
  topic_name := None;
  message_body := PNone;
  message_title := PNone;
  message_icon := PNone;
  sound := PNone;
  condition := PNone;
  collapse_key := PNone;
  delay_while_idle := PBool false;
  time_to_live := PNone;
  restricted_package_name := PNone;
  low_priority := PBool false;
  dry_run := PBool false;
  data_message := PNone;
  click_action := PNone;
  badge := PNone;
  color := PNone;
  tag := PNone;
  body_loc_key := PNone;
  body_loc_args := PNone;
  title_loc_key := PNone;
  title_loc_args := PNone;
  extra_kwargs := ∅
|}.

(** A call that names the parameters the properties below are about and
    leaves every other one at its default:
    [parse_payload(registration_ids=ids, topic_name=topic, message_body=body,
    sound=snd, condition=cond, time_to_live=ttl, data_message=data, **extra)]. *)
Definition call (ids : option (list string)) (topic : option string)
    (body snd cond ttl data : PyVal) (extra : gmap string PyVal) : PayloadArgs := {|
  registration_ids := ids;
  topic_name := topic;
  message_body := body;
  message_title := PNone;
  message_icon := PNone;
  sound := snd;
  condition := cond;
  collapse_key := PNone;
  delay_while_idle := PBool false;
  time_to_live := ttl;
  restricted_package_name := PNone;
  low_priority := PBool false;
  dry_run := PBool false;
  data_message := data;
  click_action := PNone;
  badge := PNone;
  color := PNone;
  tag := PNone;
  body_loc_key := PNone;
  body_loc_args := PNone;
  title_loc_key := PNone;
  title_loc_args := PNone;
  extra_kwargs := extra
|}.

(** The names bound by the signature.  A keyword argument with one of these
    names is bound to its parameter, so it never lands in [extra_kwargs]. *)
Definition parameter_names : list string :=
  [ "self"; "registration_ids"; "topic_name"; "message_body"; "message_title";
    "message_icon"; "sound"; "condition"; "collapse_key"; "delay_while_idle";
    "time_to_live"; "restricted_package_name"; "low_priority"; "dry_run";
    "data_message"; "click_action"; "badge"; "color"; "tag"; "body_loc_key";
    "body_loc_args"; "title_loc_key"; "title_loc_args" ].

(** What the call convention guarantees about [extra_kwargs]. *)
Definition kwargs_ok (a : PayloadArgs) : bool :=
  forallb (λ name, bool_decide (extra_kwargs a !! name = None)) parameter_names.

(** The recipient list and the topic name as values. *)
Definition ids_val (ids : option (list string)) : PyVal :=
  match ids with
  | None => PNone
  | Some l => PList (PStr <$> l)
  end.

Definition str_val (s : option string) : PyVal :=
  match s with
  | None => PNone
  | Some t => PStr t
  end.

(** [l[0]]. *)
Definition item0 {A} (l : list A) : Outcome A :=
  match l !! 0 with
  | Some x => Return x
  | None => Raise IndexError
  end.

(** The statement pattern [if v: d[key] = v]. *)
Definition set_if (key : string) (v : PyVal) (d : gmap string PyVal)
  : gmap string PyVal :=
  if truthy v then <[key := v]> d else d.

(** The nested [notification] dictionary, built when a message body is
    given: body, title and icon always, the rest when true. *)
Definition notification (a : PayloadArgs) : gmap string PyVal :=
  let n : gmap string PyVal :=
    <["icon" := message_icon a]>
      (<["title" := message_title a]> (<["body" := message_body a]> ∅)) in
  let n := set_if "click_action" (click_action a) n in
  let n := set_if "badge" (badge a) n in
  let n := set_if "color" (color a) n in
  let n := set_if "tag" (tag a) n in
  let n := set_if "body_loc_key" (body_loc_key a) n in
  let n := set_if "body_loc_args" (body_loc_args a) n in
  let n := set_if "title_loc_key" (title_loc_key a) n in
  let n := set_if "title_loc_args" (title_loc_args a) n in
  set_if "sound" (sound a) n.

(** The statements of [parse_payload], in the order of the source; each
    takes the dictionary [fcm_payload] as the statements before it left
    it. *)

(** [if registration_ids:]: the list under [registration_ids] when it has
    more than one id, its only id under [to] otherwise. *)
Definition put_recipients (a : PayloadArgs) (fcm_payload : gmap string PyVal)
  : Outcome (gmap string PyVal) :=
  if truthy (ids_val (registration_ids a)) then
    let ids := default [] (registration_ids a) in
    if 1 <? length ids
    then Return (<["registration_ids" := ids_val (registration_ids a)]> fcm_payload)
    else first ← item0 ids; Return (<["to" := PStr first]> fcm_payload)
  else Return fcm_payload.

(** [if condition: ... else: if topic_name: ...]. *)
Definition put_target (a : PayloadArgs) (fcm_payload : gmap string PyVal)
  : gmap string PyVal :=
  if truthy (condition a)
  then <["condition" := condition a]> fcm_payload
  else if truthy (str_val (topic_name a))
       then <["to" := PStr ("/topics/" ++ default "" (topic_name a))]> fcm_payload
       else fcm_payload.

(** [if low_priority: ... else: ...]. *)
Definition put_priority (a : PayloadArgs) (fcm_payload : gmap string PyVal)
  : gmap string PyVal :=
  if truthy (low_priority a)
  then <["priority" := PStr FCM_LOW_PRIORITY]> fcm_payload
  else <["priority" := PStr FCM_HIGH_PRIORITY]> fcm_payload.

(** The two exceptions that [parse_payload] raises. *)
Definition time_to_live_error : PyErr :=
  InvalidDataError "Provided time_to_live is not an integer".

Definition data_message_error : PyErr :=
  InvalidDataError "Provided data_message is in the wrong format".

(** [if time_to_live:] with its class test. *)
Definition put_time_to_live (a : PayloadArgs) (fcm_payload : gmap string PyVal)
  : Outcome (gmap string PyVal) :=
  if truthy (time_to_live a) then
    if isinstance_int (time_to_live a)
    then Return (<["time_to_live" := time_to_live a]> fcm_payload)
    else Raise (InvalidDataError "Provided time_to_live is not an integer")
  else Return fcm_payload.

(** [if data_message:] with its class test. *)
Definition put_data (a : PayloadArgs) (fcm_payload : gmap string PyVal)
  : Outcome (gmap string PyVal) :=
  if truthy (data_message a) then
    if isinstance_dict (data_message a)
    then Return (<["data" := data_message a]> fcm_payload)
    else Raise (InvalidDataError "Provided data_message is in the wrong format")
  else Return fcm_payload.

(** [if message_body: ... else: ...]. *)
Definition put_notification (a : PayloadArgs) (fcm_payload : gmap string PyVal)
  : gmap string PyVal :=
  if truthy (message_body a)
  then <["notification" := PDict (notification a)]> fcm_payload
  else <["content_available" := PBool true]> fcm_payload.

(** [if extra_kwargs: fcm_payload.update(extra_kwargs)]: the extra keys
    win over the keys already there. *)
Definition put_extra (a : PayloadArgs) (fcm_payload : gmap string PyVal)
  : gmap string PyVal :=
  if truthy (PDict (extra_kwargs a))
  then extra_kwargs a ∪ fcm_payload
  else fcm_payload.

(** The body of [parse_payload] up to its last statement: the dictionary
    [fcm_payload] as it stands when it is handed to [json_dumps], or the
    exception raised on the way. *)
Definition parse_payload_fields (a : PayloadArgs) : Outcome (gmap string PyVal) :=
  fcm_payload ← put_recipients a ∅;
  let fcm_payload := put_target a fcm_payload in
  let fcm_payload := put_priority a fcm_payload in
  let fcm_payload := set_if "delay_while_idle" (delay_while_idle a) fcm_payload in
  let fcm_payload := set_if "collapse_key" (collapse_key a) fcm_payload in
  fcm_payload ← put_time_to_live a fcm_payload;
  let fcm_payload :=
    set_if "restricted_package_name" (restricted_package_name a) fcm_payload in
  let fcm_payload := set_if "dry_run" (dry_run a) fcm_payload in
  fcm_payload ← put_data a fcm_payload;
  let fcm_payload := put_notification a fcm_payload in
  let fcm_payload := put_extra a fcm_payload in
  Return fcm_payload.

Section serialisation.
(** The library call of [json_dumps]:
    [json.dumps(data, separators=(',', ':'), sort_keys=True).encode('utf8')],
    from a value to the bytes of its compact JSON text with sorted keys. *)
Variable json_encode : PyVal → string.

Definition json_dumps (data : PyVal) : string := json_encode data.

Definition parse_payload (a : PayloadArgs) : Outcome string :=
  fcm_payload ← parse_payload_fields a;
  Return (json_dumps (PDict fcm_payload)).
End serialisation.

(** What a call of [parse_payload] comes to, whatever the JSON library
    writes: it builds the dictionary [p] and returns its serialisation, or
    it raises [e]. *)
Definition builds (a : PayloadArgs) (p : gmap string PyVal) : Prop :=
  parse_payload_fields a = Return p
  ∧ ∀ json_encode, parse_payload json_encode a
                   = Return (json_dumps json_encode (PDict p)).

Definition raises (a : PayloadArgs) (e : PyErr) : Prop :=
  parse_payload_fields a = Raise e
  ∧ ∀ json_encode, parse_payload json_encode a = Raise e.

(** The same call with another [topic_name]. *)
Definition with_topic_name (t : option string) (a : PayloadArgs) : PayloadArgs := {|
  registration_ids := registration_ids a;
  topic_name := t;
  message_body := message_body a;
  message_title := message_title a;
  message_icon := message_icon a;
  sound := sound a;
  condition := condition a;
  collapse_key := collapse_key a;
  delay_while_idle := delay_while_idle a;
  time_to_live := time_to_live a;
  restricted_package_name := restricted_package_name a;
  low_priority := low_priority a;
  dry_run := dry_run a;
  data_message := data_message a;
  click_action := click_action a;
  badge := badge a;
  color := color a;
  tag := tag a;
  body_loc_key := body_loc_key a;
  body_loc_args := body_loc_args a;
  title_loc_key := title_loc_key a;
  title_loc_args := title_loc_args a;
  extra_kwargs := extra_kwargs a
|}.

(** ** [parse_response] *)

(** An HTTP answer as the client library presents it: the status code, the
    headers (a case-insensitive dictionary, here keyed by the lower-case
    header name), the body text, and the result of [response.json()], which
    is the decoded body or the exception raised on a body that is not
    JSON. *)
Record Response : Type := {
  status_code : Z;
  headers : gmap string string;
  text : string;
  json : Outcome PyVal
}.

(** [obj.get(key, dflt)]: defined on dictionaries only. *)
Definition py_get (obj : PyVal) (key : string) (dflt : PyVal) : Outcome PyVal :=
  match obj with
  | PDict d => Return (default dflt (d !! key))
  | _ => Raise AttributeError
  end.

Section response.
(** The built-in [int] on a string: the integer it denotes, or [None]
    where [int] raises [ValueError]. *)
Variable int_of_str : string → option Z.

Definition py_int (s : string) : Outcome Z :=
  match int_of_str s with
  | Some n => Return n
  | None => Raise ValueError
  end.

Definition parse_response (response : Response) : Outcome PyVal :=
  empty_body ←
    match headers response !! "content-length" with
    | Some v => n ← py_int v; Return (n <=? 0)%Z
    | None => Return false
    end;
  if (empty_body : bool) then Return (PDict ∅)
  else
    parsed_response ← json response;
    multicast_id ← py_get parsed_response "multicast_id" PNone;
    success ← py_get parsed_response "success" (PInt 0);
    failure ← py_get parsed_response "failure" (PInt 0);
    canonical_ids ← py_get parsed_response "canonical_ids" (PInt 0);
    results ← py_get parsed_response "results" (PList []);
    message_id ← py_get parsed_response "message_id" PNone;
    Return (PDict (<["multicast_id" := multicast_id]>
                  (<["success" := success]>
                  (<["failure" := failure]>
                  (<["canonical_ids" := canonical_ids]>
                  (<["results" := results]> ∅)))))).
(** The answer does not declare an empty body: it has no [content-length]
header, or the header holds a positive number. *)
Definition body_expected (response : Response) : Prop :=
  headers response !! "content-length" = None
  ∨ ∃ v n, headers response !! "content-length" = Some v
           ∧ int_of_str v = Some n ∧ (0 < n)%Z.

End response.

(** ** [send_request] *)

(** The instance attributes that the methods read. *)
Record BaseAPI : Type := {
  _FCM_API_KEY : string;
  FCM_REQ_PROXIES : option (gmap string PyVal)
}.

Definition proxies_val (p : option (gmap string PyVal)) : PyVal :=
  match p with
  | None => PNone
  | Some d => PDict d
  end.

Definition request_headers (self : BaseAPI) : gmap string string :=
  <["Content-Type" := CONTENT_TYPE]>
    (<["Authorization" := "key=" ++ _FCM_API_KEY self]> ∅).

(** One call of [requests.post]. *)
Record Request : Type := {
  url : string;
  request_hdrs : gmap string string;
  data : string;
  proxies : option (gmap string PyVal)
}.

(** Code that talks to the network: it runs from the list of the requests
    sent so far and leaves that list extended, with a value or an
    exception. *)
Definition Net (A : Type) : Type := list Request → Outcome A * list Request.

#[global] Instance Net_ret : MRet Net := λ A a sent, (Return a, sent).
#[global] Instance Net_bind : MBind Net := λ A B f m sent,
  match m sent with
  | (Return a, sent') => f a sent'
  | (Raise e, sent') => (Raise e, sent')
  end.

Definition lift {A} (o : Outcome A) : Net A := λ sent, (o, sent).
Definition raise {A} (e : PyErr) : Net A := lift (Raise e).

(** A [for] loop whose body either falls through to the next element
    ([None]) or leaves the function with [return v] ([Some v]); a loop that
    runs to its end makes the function return [None]. *)
Fixpoint for_each {A} (body : A → Net (option PyVal)) (l : list A) : Net PyVal :=
  match l with
  | [] => mret PNone
  | x :: l' =>
      r ← body x;
      match r with
      | Some v => mret v
      | None => for_each body l'
      end
  end.

Section transport.
Variable int_of_str : string → option Z.

(** The remote end: the answer to a request, given the requests that came
    before it, or the exception that [requests.post] raises. *)
Variable fcm_server : list Request → Request → Outcome Response.

Definition requests_post (req : Request) : Net Response :=
  λ sent, (fcm_server sent req, (sent ++ [req])%list).

(** The first two statements of the loop body: the payload is posted, and
posted once more through the proxies when there are any; the answer kept
is the last one. *)
Definition receive (self : BaseAPI) (payload : string) : Net Response :=
  response ← requests_post {| url := FCM_END_POINT;
                              request_hdrs := request_headers self;
                              data := payload;
                              proxies := None |};
  if truthy (proxies_val (FCM_REQ_PROXIES self))
  then requests_post {| url := FCM_END_POINT;
                        request_hdrs := request_headers self;
                        data := payload;
                        proxies := FCM_REQ_PROXIES self |}
  else mret response.

(** The chain of tests on the status code; each of its paths ends in
[return] or [raise]. *)
Definition classify (response : Response) : Net (option PyVal) :=
  if (status_code response =? 200)%Z then
    parsed ← lift (parse_response int_of_str response); mret (Some parsed)
  else if (status_code response =? 401)%Z then
    raise (AuthenticationError "There was an error authenticating the sender account")
  else if (status_code response =? 400)%Z then
    raise (InternalPackageError (text response))
  else
    raise (FCMServerError "FCM server is temporarily unavailable").

(** The body of the loop of [send_request]. *)
Definition send_payload (self : BaseAPI) (payload : string) : Net (option PyVal) :=
  response ← receive self payload;
  classify response.

Definition send_request (self : BaseAPI) (payloads : list string) : Net PyVal :=
  for_each (send_payload self) payloads.
End transport.

(** ** Runs of the model *)

(** A reading of the built-in [int] to run the model with: an optional sign
    and decimal digits denote their integer, every other string is
    refused.  The properties of [parse_response] and [send_request] are
    stated for any reading; this one serves the examples. *)
Definition digit_of (c : ascii) : option Z :=
  let n := nat_of_ascii c in
  if (48 <=? n) && (n <=? 57) then Some (Z.of_nat (n - 48)) else None.

Fixpoint digits_from (acc : Z) (s : string) : option Z :=
  match s with
  | EmptyString => Some acc
  | String c s' =>
      match digit_of c with
      | Some d => digits_from (10 * acc + d)%Z s'
      | None => None
      end
  end.

Definition int_of_decimal (s : string) : option Z :=
  match s with
  | EmptyString => None
  | String "-"%char (String _ _ as s') => Z.opp <$> digits_from 0 s'
  | String "+"%char (String _ _ as s') => digits_from 0 s'
  | _ => digits_from 0 s
  end.

(** A remote end that gives the same answer to every request. *)
Definition always (r : Response) : list Request → Request → Outcome Response :=
  λ _ _, Return r.

(** The answers of the spec's examples: a 200 with [content-length: 0]; a
    200 whose body decodes to an object with the counters, one result and
    no [multicast_id]; the same with a [message_id] beside them; and a 400
    with an error text. *)
Definition empty_ok : Response := {|
  status_code := 200;
  headers := {["content-length" := "0"]};
  text := "";
  json := Raise ValueError
|}.

Definition counters : gmap string PyVal :=
  <["success" := PInt 1]>
    (<["failure" := PInt 0]>
       (<["canonical_ids" := PInt 0]>
          (<["results" := PList [PDict {["message_id" := PStr "abc"]}]]> ∅))).

Definition counted_ok : Response := {|
  status_code := 200;
  headers := {["content-length" := "78"]};
  text := "{...}";
  json := Return (PDict counters)
|}.

Definition topic_ok : Response := {|
  status_code := 200;
  headers := ∅;
  text := "{...}";
  json := Return (PDict (<["message_id" := PInt 42]> counters))
|}.

Definition bad_request : Response := {|
  status_code := 400;
  headers := {["content-length" := "19"]};
  text := "InvalidRegistration";
  json := Raise ValueError
|}.

Definition direct_client : BaseAPI := {|
  _FCM_API_KEY := "secret";
  FCM_REQ_PROXIES := None
|}.

(** ** [__init__] *)

(** [key in d] for a dictionary [d]. *)
Definition dict_has (key : string) (v : PyVal) : bool :=
  match v with
  | PDict d => match d !! key with Some _ => true | None => false end
  | _ => false
  end.

(** The dictionary behind a value that passed [isinstance(v, dict)]. *)
Definition as_dict (v : PyVal) : option (gmap string PyVal) :=
  match v with
  | PDict d => Some d
  | _ => None
  end.

(** The constructor, run in the process environment [env] (the variables
    that [os.getenv] reads): the key is the argument when it is true, else
    the variable [FCM_API_KEY] when it is set and true, else the
    constructor raises; the proxies are kept only when they are a
    dictionary with an [http] or an [https] entry. *)
Definition init (env : gmap string string) (api_key : option string)
    (proxy_dict : PyVal) : Outcome BaseAPI :=
  key ←
    (if truthy (str_val api_key) then Return (default "" api_key)
     else if truthy (str_val (env !! "FCM_API_KEY"))
          then Return (default "" (env !! "FCM_API_KEY"))
          else Raise (AuthenticationError
                        "Please provide the api_key in the google-services.json file"));
  Return {| _FCM_API_KEY := key;
            FCM_REQ_PROXIES :=
              if truthy proxy_dict && isinstance_dict proxy_dict
                 && (dict_has "http" proxy_dict || dict_has "https" proxy_dict)
              then as_dict proxy_dict
              else None |}.

(** ** The requests of [send_request] *)

(** The two calls of [requests.post] in the loop body, as requests. *)
Definition direct_request (self : BaseAPI) (payload : string) : Request := {|
  url := FCM_END_POINT;
  request_hdrs := request_headers self;
  data := payload;
  proxies := None
|}.

Definition proxied_request (self : BaseAPI) (payload : string) : Request := {|
  url := FCM_END_POINT;
  request_hdrs := request_headers self;
  data := payload;
  proxies := FCM_REQ_PROXIES self
|}.

(** A remote end that refuses the first connection and answers [r]
    afterwards, and a client with proxies. *)
Definition after_failure (r : Response)
  : list Request → Request → Outcome Response :=
  λ sent _, match sent with [] => Raise TransportError | _ => Return r end.

Definition unauthorized : Response := {|
  status_code := 401;
  headers := ∅;
  text := "Unauthorized";
  json := Raise ValueError
|}.

Definition proxied_client : BaseAPI := {|
  _FCM_API_KEY := "secret";
  FCM_REQ_PROXIES := Some {["https" := PStr "https://proxy.example:3128"]}
|}.

(** A remote end that answers the first request with [r1] and every later
    one with [r2]. *)
Definition first_then (r1 r2 : Response)
  : list Request → Request → Outcome Response :=
  λ sent _, match sent with [] => Return r1 | _ => Return r2 end.

(** ** Key sets *)

(** The keys that the statements of [parse_payload] can put into the
    payload, and the keys they can put into the notification object. *)
Definition payload_keys : list string :=
  [ "registration_ids"; "to"; "condition"; "priority"; "delay_while_idle";
    "collapse_key"; "time_to_live"; "restricted_package_name"; "dry_run";
    "data"; "notification"; "content_available" ].

Definition notification_keys : list string :=
  [ "body"; "title"; "icon"; "click_action"; "badge"; "color"; "tag";
    "body_loc_key"; "body_loc_args"; "title_loc_key"; "title_loc_args";
    "sound" ].

(** * Properties of the chunking *)

Section chunking.
Context {A : Type}.
Variable k : nat.
Hypothesis k_pos : 0 < k.

Lemma ceil_div_zero : ceil_div 0 k = 0.
Proof. unfold ceil_div. apply Nat.div_small. lia. Qed.

Lemma ceil_div_step (n : nat) : 0 < n → ceil_div n k = S (ceil_div (n - k) k).
Proof.
  intros Hn. unfold ceil_div.
  destruct (decide (n ≤ k)) as [Hle | Hgt].
  - replace (n - k) with 0 by lia.
    rewrite (Nat.div_small (0 + (k - 1)) k) by lia.
    symmetry. apply (Nat.div_unique _ _ 1 (n - 1)); lia.
  - replace (n + (k - 1)) with (1 * k + (n - k + (k - 1))) by lia.
    rewrite Nat.div_add_l by lia. lia.
Qed.

Lemma ceil_div_one (n : nat) : 0 < n → n ≤ k → ceil_div n k = 1.
Proof.
  intros Hn Hle. rewrite ceil_div_step by done.
  replace (n - k) with 0 by lia. by rewrite ceil_div_zero.
Qed.

Lemma xrange_from_length (fuel start stop : nat) :
  stop - start ≤ fuel →
  length (xrange_from fuel start stop k) = ceil_div (stop - start) k.
Proof.
  revert start. induction fuel as [|fuel IH]; intros start Hfuel; simpl.
  - replace (stop - start) with 0 by lia. by rewrite ceil_div_zero.
  - destruct (Nat.ltb_spec start stop) as [Hlt | Hge]; simpl.
    + rewrite IH by lia. rewrite (ceil_div_step (stop - start)) by lia.
      do 2 f_equal. lia.
    + replace (stop - start) with 0 by lia. by rewrite ceil_div_zero.
Qed.

Lemma xrange_from_bound (fuel start stop : nat) :
  Forall (λ i, i < stop) (xrange_from fuel start stop k).
Proof.
  revert start. induction fuel as [|fuel IH]; intros start; simpl.
  - constructor.
  - destruct (Nat.ltb_spec start stop); [constructor; [done | apply IH] | constructor].
Qed.

Lemma xrange_from_concat (l : list A) (fuel start : nat) :
  length l - start ≤ fuel →
  concat ((λ i, slice l i (i + k)) <$> xrange_from fuel start (length l) k)
  = drop start l.
Proof.
  revert start. induction fuel as [|fuel IH]; intros start Hfuel; simpl.
  - symmetry. apply drop_ge. lia.
  - destruct (Nat.ltb_spec start (length l)) as [Hlt | Hge]; simpl.
    + rewrite IH by lia. unfold slice.
      replace (start + k - start) with k by lia.
      rewrite <- (take_drop k (drop start l)) at 2.
      by rewrite drop_drop.
    + symmetry. apply drop_ge. lia.
Qed.

Lemma slice_length (l : list A) (i : nat) :
  i < length l → 1 ≤ length (slice l i (i + k)) ≤ k.
Proof.
  intros Hi. unfold slice. rewrite length_take, length_drop. lia.
Qed.
End chunking.

Lemma FCM_MAX_RECIPIENTS_pos : 0 < FCM_MAX_RECIPIENTS.
Proof. unfold FCM_MAX_RECIPIENTS. lia. Qed.

Lemma registration_id_chunks_length {A} (ids : list A) :
  length (registration_id_chunks ids) = ceil_div (length ids) FCM_MAX_RECIPIENTS.
Proof.
  unfold registration_id_chunks, xrange. rewrite length_fmap.
  rewrite xrange_from_length by (apply FCM_MAX_RECIPIENTS_pos || lia).
  f_equal. lia.
Qed.

Lemma registration_id_chunks_sizes {A} (ids : list A) :
  Forall (λ c, 1 ≤ length c ≤ FCM_MAX_RECIPIENTS) (registration_id_chunks ids).
Proof.
  unfold registration_id_chunks. rewrite Forall_fmap.
  eapply Forall_impl; [apply xrange_from_bound |].
  intros i Hi. apply slice_length; [apply FCM_MAX_RECIPIENTS_pos | done].
Qed.

Lemma registration_id_chunks_concat {A} (ids : list A) :
  concat (registration_id_chunks ids) = ids.
Proof.
  unfold registration_id_chunks, xrange.
  by rewrite xrange_from_concat by (apply FCM_MAX_RECIPIENTS_pos || lia).
Qed.

(** A list of 2500 ids goes out as chunks of 1000, 1000 and 500. *)
Example registration_id_chunks_2500 :
  length <$> registration_id_chunks (replicate 2500 "id") = [1000; 1000; 500].
Proof. vm_compute. reflexivity. Qed.

(** C2, as the claim has it, fails on the empty list: its length is within
    the limit of 1000, and the generator yields no chunk at all, not one. *)
Lemma registration_id_chunks_empty_list :
  length (@nil string) ≤ FCM_MAX_RECIPIENTS
  ∧ registration_id_chunks (@nil string) = []
  ∧ length (registration_id_chunks (@nil string)) ≠ 1.
Proof.
  split; [unfold FCM_MAX_RECIPIENTS; simpl; lia |].
  split; [reflexivity | discriminate].
Qed.

(** C2, amended: for a recipient list of any length [n],
    [registration_id_chunks] yields [ceil (n / 1000)] chunks, which is none
    for the empty list, exactly one for [1 <= n <= 1000] and more than one
    above 1000; every chunk holds at least one and at most 1000 ids, and the
    chunks concatenated in order are the original list. *)
Theorem registration_id_chunks_spec {A} (ids : list A) :
  length (registration_id_chunks ids) = ceil_div (length ids) FCM_MAX_RECIPIENTS
  ∧ ((length ids = 0 ∧ length (registration_id_chunks ids) = 0)
     ∨ (1 ≤ length ids ≤ FCM_MAX_RECIPIENTS
        ∧ length (registration_id_chunks ids) = 1)
     ∨ (FCM_MAX_RECIPIENTS < length ids
        ∧ 1 < length (registration_id_chunks ids)))
  ∧ Forall (λ c, 1 ≤ length c ≤ FCM_MAX_RECIPIENTS) (registration_id_chunks ids)
  ∧ concat (registration_id_chunks ids) = ids.
Proof.
  pose proof FCM_MAX_RECIPIENTS_pos as Hpos.
  split; [apply registration_id_chunks_length |].
  split; [| split; [apply registration_id_chunks_sizes
                   | apply registration_id_chunks_concat]].
  rewrite registration_id_chunks_length.
  destruct (decide (length ids = 0)) as [Hz | Hnz].
  - left. by rewrite Hz, (ceil_div_zero _ Hpos).
  - destruct (decide (length ids ≤ FCM_MAX_RECIPIENTS)) as [Hle | Hgt].
    + right; left. split; [lia |]. apply ceil_div_one; lia.
    + right; right. split; [lia |].
      rewrite ceil_div_step by lia.
      rewrite (ceil_div_step _ Hpos (length ids - FCM_MAX_RECIPIENTS)) by lia.
      lia.
Qed.

(** * Properties of the payload builder *)

(** ** The statements one by one *)

Lemma lookup_set_if_ne (key k : string) (v : PyVal) (d : gmap string PyVal) :
  key ≠ k → set_if key v d !! k = d !! k.
Proof.
  intros Hne. unfold set_if. destruct (truthy v); [| done].
  by rewrite lookup_insert_ne.
Qed.

Lemma put_recipients_eq (a : PayloadArgs) (p0 : gmap string PyVal) :
  put_recipients a p0 =
  Return match registration_ids a with
         | Some [r] => <["to" := PStr r]> p0
         | Some (_ :: _ :: _) =>
             <["registration_ids" := ids_val (registration_ids a)]> p0
         | _ => p0
         end.
Proof.
  unfold put_recipients.
  destruct (registration_ids a) as [[|r [|r' l]]|]; reflexivity.
Qed.

Lemma lookup_put_target_ne (a : PayloadArgs) (p : gmap string PyVal) (k : string) :
  k ≠ "condition" → k ≠ "to" → put_target a p !! k = p !! k.
Proof.
  intros Hc Ht. unfold put_target.
  destruct (truthy (condition a)); [by rewrite lookup_insert_ne |].
  destruct (truthy (str_val (topic_name a))); [by rewrite lookup_insert_ne | done].
Qed.

Lemma lookup_put_priority_ne (a : PayloadArgs) (p : gmap string PyVal) (k : string) :
  k ≠ "priority" → put_priority a p !! k = p !! k.
Proof.
  intros Hne. unfold put_priority.
  destruct (truthy (low_priority a)); by rewrite lookup_insert_ne.
Qed.

Lemma lookup_put_time_to_live_ne (a : PayloadArgs) (p p' : gmap string PyVal)
    (k : string) :
  put_time_to_live a p = Return p' → k ≠ "time_to_live" → p' !! k = p !! k.
Proof.
  unfold put_time_to_live. intros Hput Hne.
  destruct (truthy (time_to_live a)), (isinstance_int (time_to_live a));
    simplify_eq; [by rewrite lookup_insert_ne | done | done].
Qed.

Lemma lookup_put_data_ne (a : PayloadArgs) (p p' : gmap string PyVal) (k : string) :
  put_data a p = Return p' → k ≠ "data" → p' !! k = p !! k.
Proof.
  unfold put_data. intros Hput Hne.
  destruct (truthy (data_message a)), (isinstance_dict (data_message a));
    simplify_eq; [by rewrite lookup_insert_ne | done | done].
Qed.

Lemma lookup_put_notification_ne (a : PayloadArgs) (p : gmap string PyVal)
    (k : string) :
  k ≠ "notification" → k ≠ "content_available" →
  put_notification a p !! k = p !! k.
Proof.
  intros Hn Hc. unfold put_notification.
  destruct (truthy (message_body a)); by rewrite lookup_insert_ne.
Qed.

(** [update] lets the extra keys win. *)
Lemma lookup_put_extra (a : PayloadArgs) (p : gmap string PyVal) (k : string) :
  put_extra a p !! k =
  match extra_kwargs a !! k with
  | Some v => Some v
  | None => p !! k
  end.
Proof.
  unfold put_extra, truthy.
  destruct (Nat.eqb_spec (size (extra_kwargs a)) 0) as [Hz | Hnz]; simpl.
  - apply map_size_empty_inv in Hz. by rewrite Hz, lookup_empty.
  - rewrite lookup_union.
    by destruct (extra_kwargs a !! k), (p !! k).
Qed.

(** A keyword argument named like a parameter is never an extra one. *)
Lemma kwargs_ok_lookup (a : PayloadArgs) (k : string) :
  kwargs_ok a = true → k ∈ parameter_names → extra_kwargs a !! k = None.
Proof.
  unfold kwargs_ok. rewrite forallb_forall. intros Hall Hin.
  apply list_elem_of_In, Hall in Hin. by apply bool_decide_eq_true in Hin.
Qed.

(** ** The whole function *)

(** A call that returns went through every statement. *)
Lemma parse_payload_fields_inv (a : PayloadArgs) (p : gmap string PyVal) :
  parse_payload_fields a = Return p →
  ∃ p1 p2 p3,
    put_recipients a ∅ = Return p1
    ∧ put_time_to_live a
        (set_if "collapse_key" (collapse_key a)
           (set_if "delay_while_idle" (delay_while_idle a)
              (put_priority a (put_target a p1)))) = Return p2
    ∧ put_data a
        (set_if "dry_run" (dry_run a)
           (set_if "restricted_package_name" (restricted_package_name a) p2))
      = Return p3
    ∧ p = put_extra a (put_notification a p3).
Proof.
  unfold parse_payload_fields. intros Hp.
  destruct (put_recipients a ∅) as [p1|e1]; [| discriminate]. simpl in Hp.
  destruct (put_time_to_live a _) as [p2|e2] eqn:H2; [| discriminate].
  simpl in Hp.
  destruct (put_data a _) as [p3|e3] eqn:H3; [| discriminate].
  simpl in Hp. exists p1, p2, p3. by simplify_eq.
Qed.

(** The two exceptions of [parse_payload], and when it returns: the class
    tests on [time_to_live] and [data_message] decide, in this order. *)
Lemma parse_payload_fields_cases (a : PayloadArgs) :
  (truthy (time_to_live a) = true ∧ isinstance_int (time_to_live a) = false
   ∧ parse_payload_fields a
     = Raise (InvalidDataError "Provided time_to_live is not an integer"))
  ∨ ((truthy (time_to_live a) = false ∨ isinstance_int (time_to_live a) = true)
     ∧ truthy (data_message a) = true ∧ isinstance_dict (data_message a) = false
     ∧ parse_payload_fields a
       = Raise (InvalidDataError "Provided data_message is in the wrong format"))
  ∨ ((truthy (time_to_live a) = false ∨ isinstance_int (time_to_live a) = true)
     ∧ (truthy (data_message a) = false ∨ isinstance_dict (data_message a) = true)
     ∧ ∃ p, parse_payload_fields a = Return p).
Proof.
  unfold parse_payload_fields. rewrite put_recipients_eq.
  cbn [mbind Outcome_bind]. unfold put_time_to_live, put_data.
  destruct (truthy (time_to_live a)), (isinstance_int (time_to_live a));
    cbn [mbind Outcome_bind];
    try (left; repeat split; reflexivity);
    destruct (truthy (data_message a)), (isinstance_dict (data_message a));
    cbn [mbind Outcome_bind];
    first [ right; left; repeat split; first [reflexivity | left; reflexivity
                                              | right; reflexivity]
          | right; right;
            split; [first [left; reflexivity | right; reflexivity] |];
            split; [first [left; reflexivity | right; reflexivity] |];
            eexists; reflexivity ].
Qed.

Lemma builds_iff (a : PayloadArgs) (p : gmap string PyVal) :
  builds a p ↔ parse_payload_fields a = Return p.
Proof.
  split; [by intros [? _] |].
  intros Hp. split; [done |]. intros enc. unfold parse_payload. by rewrite Hp.
Qed.

Lemma raises_iff (a : PayloadArgs) (e : PyErr) :
  raises a e ↔ parse_payload_fields a = Raise e.
Proof.
  split; [by intros [? _] |].
  intros Hp. split; [done |]. intros enc. unfold parse_payload. by rewrite Hp.
Qed.

Lemma lookup_set_if_eq (key : string) (v : PyVal) (d : gmap string PyVal) :
  set_if key v d !! key = if truthy v then Some v else d !! key.
Proof.
  unfold set_if. destruct (truthy v); [| done]. by rewrite lookup_insert_eq.
Qed.

(** The value of a key of the returned payload that only the statements up
    to the priority can set: later statements leave it alone, and an extra
    keyword argument of that name replaces it. *)
Lemma lookup_payload_early (a : PayloadArgs) (p : gmap string PyVal) (k : string) :
  parse_payload_fields a = Return p →
  k ≠ "delay_while_idle" → k ≠ "collapse_key" → k ≠ "time_to_live" →
  k ≠ "restricted_package_name" → k ≠ "dry_run" → k ≠ "data" →
  k ≠ "notification" → k ≠ "content_available" →
  ∃ p1, put_recipients a ∅ = Return p1
        ∧ p !! k = match extra_kwargs a !! k with
                   | Some v => Some v
                   | None => put_priority a (put_target a p1) !! k
                   end.
Proof.
  intros Hp Hk1 Hk2 Hk3 Hk4 Hk5 Hk6 Hk7 Hk8.
  destruct (parse_payload_fields_inv a p Hp) as (p1 & p2 & p3 & H1 & H2 & H3 & ->).
  exists p1. split; [done |].
  rewrite lookup_put_extra, lookup_put_notification_ne by done.
  rewrite (lookup_put_data_ne _ _ _ _ H3) by done.
  rewrite !lookup_set_if_ne by done.
  rewrite (lookup_put_time_to_live_ne _ _ _ _ H2) by done.
  by rewrite !lookup_set_if_ne by done.
Qed.

(** ** Addressing by registration ids (C1) *)

(** C1, as the claim has it, fails: called with the single registration id
    [abc] and the topic name [news], [parse_payload] first stores the id
    under [to] and then stores the topic path under the same key, so the
    scalar target field holds [/topics/news] and not the registration id. *)
Lemma single_id_overwritten_by_topic :
  ∃ p, builds (call (Some ["abc"]) (Some "news") PNone PNone PNone PNone PNone ∅) p
       ∧ p !! "to" = Some (PStr "/topics/news")
       ∧ p !! "to" ≠ Some (PStr "abc").
Proof.
  eexists. split; [apply builds_iff; reflexivity |].
  split; [vm_compute; reflexivity | vm_compute; discriminate].
Qed.

(** C1, amended: for every call of [parse_payload] with a non-empty
    recipient list that returns a payload: with more than one id, the list
    field [registration_ids] holds the ids whatever topic name or condition
    is given; with exactly one id there is no list field, and the scalar
    field [to] holds the id when a condition is given or no topic name is
    given, and the topic path [/topics/<name>] when a topic name is given
    without a condition; an extra keyword argument named [to] replaces
    either. *)
Theorem recipients_addressing (a : PayloadArgs) (ids : list string)
    (p : gmap string PyVal) :
  kwargs_ok a = true →
  registration_ids a = Some ids →
  ids ≠ [] →
  builds a p →
  (1 < length ids → p !! "registration_ids" = Some (PList (PStr <$> ids)))
  ∧ (∀ r, ids = [r] →
       p !! "registration_ids" = None
       ∧ p !! "to" = Some
           match extra_kwargs a !! "to" with
           | Some v => v
           | None =>
               if truthy (condition a) then PStr r
               else if truthy (str_val (topic_name a))
                    then PStr ("/topics/" ++ default "" (topic_name a))
                    else PStr r
           end).
Proof.
  intros Hok Hids Hne [Hp _].
  assert (extra_kwargs a !! "registration_ids" = None) as Hx
    by (apply kwargs_ok_lookup; [done | unfold parameter_names; set_solver]).
  split.
  - intros Hlen.
    destruct (lookup_payload_early a p "registration_ids" Hp) as (p1 & H1 & ->);
      try done.
    rewrite Hx, lookup_put_priority_ne, lookup_put_target_ne by done.
    rewrite put_recipients_eq, Hids in H1.
    destruct ids as [|r [|r' l]]; simpl in Hlen; [lia | lia |].
    simplify_eq. by rewrite lookup_insert_eq.
  - intros r ->. split.
    + destruct (lookup_payload_early a p "registration_ids" Hp) as (p1 & H1 & ->);
        try done.
      rewrite Hx, lookup_put_priority_ne, lookup_put_target_ne by done.
      rewrite put_recipients_eq, Hids in H1. by simplify_eq.
    + destruct (lookup_payload_early a p "to" Hp) as (p1 & H1 & ->); try done.
      rewrite put_recipients_eq, Hids in H1. simplify_eq.
      destruct (extra_kwargs a !! "to"); [done |].
      rewrite lookup_put_priority_ne by done. unfold put_target.
      destruct (truthy (condition a)).
      * by rewrite lookup_insert_ne, lookup_insert_eq.
      * destruct (truthy (str_val (topic_name a))); by rewrite lookup_insert_eq.
Qed.

Lemma recipients_addressing_witness :
  ∃ p, builds (call (Some ["abc"]) None PNone PNone (PStr "'a' in topics") PNone
                 PNone ∅) p
       ∧ p !! "to" = Some (PStr "abc").
Proof.
  eexists. split; [apply builds_iff; reflexivity |].
  refine (proj2 (proj2 (recipients_addressing
                          (call (Some ["abc"]) None PNone PNone
                             (PStr "'a' in topics") PNone PNone ∅)
                          ["abc"] _ _ _ _ _) "abc" eq_refl)).
  - reflexivity.
  - reflexivity.
  - discriminate.
  - apply builds_iff. reflexivity.
Defined.

Lemma lookup_put_recipients_ne (a : PayloadArgs) (p0 p1 : gmap string PyVal)
    (k : string) :
  put_recipients a p0 = Return p1 →
  k ≠ "to" → k ≠ "registration_ids" → p1 !! k = p0 !! k.
Proof.
  rewrite put_recipients_eq. intros Hp Ht Hr.
  destruct (registration_ids a) as [[|r [|r' l]]|]; simplify_eq;
    first [done | by rewrite lookup_insert_ne].
Qed.

(** ** Time to live (C3) *)

(** The [time_to_live] key of a returned payload. *)
Lemma lookup_payload_time_to_live (a : PayloadArgs) (p : gmap string PyVal) :
  kwargs_ok a = true →
  parse_payload_fields a = Return p →
  p !! "time_to_live"
  = if truthy (time_to_live a) then Some (time_to_live a) else None.
Proof.
  intros Hok Hp.
  destruct (parse_payload_fields_inv a p Hp) as (p1 & p2 & p3 & H1 & H2 & H3 & ->).
  rewrite lookup_put_extra.
  rewrite (kwargs_ok_lookup a "time_to_live" Hok)
    by (unfold parameter_names; set_solver).
  rewrite lookup_put_notification_ne by done.
  rewrite (lookup_put_data_ne _ _ _ _ H3) by done.
  rewrite !lookup_set_if_ne by done.
  unfold put_time_to_live in H2.
  destruct (truthy (time_to_live a)).
  - destruct (isinstance_int (time_to_live a)); simplify_eq.
    by rewrite lookup_insert_eq.
  - simplify_eq. rewrite !lookup_set_if_ne by done.
    rewrite lookup_put_priority_ne, lookup_put_target_ne by done.
    by rewrite (lookup_put_recipients_ne _ _ _ _ H1).
Qed.

(** C3, as the claim has it, fails on values that Python counts as false.
    The integer 0 is present and an integer, and the payload has no
    [time_to_live] key; the empty string is present and not an integer, and
    no exception is raised. *)
Lemma time_to_live_false_values_skipped :
  (∃ p, builds (call None None PNone PNone PNone (PInt 0) PNone ∅) p
        ∧ p !! "time_to_live" = None)
  ∧ (∃ p, builds (call None None PNone PNone PNone (PStr "") PNone ∅) p).
Proof.
  split.
  - eexists. split; [apply builds_iff; reflexivity | vm_compute; reflexivity].
  - eexists. apply builds_iff. reflexivity.
Qed.

(** C3, amended: for every call of [parse_payload], with [time_to_live]
    true in Python's sense (so not [None], not 0, not empty) and not an
    instance of [int], the call raises [InvalidDataError]; with
    [time_to_live] true and an instance of [int] (a non-zero integer, or
    [True]), the only exception the call can raise is the one about
    [data_message], and every payload it returns holds the value under
    [time_to_live]; with [time_to_live] false in Python's sense ([None], 0,
    an empty string or container), the same holds of exceptions and the
    returned payload has no [time_to_live] key.  In the last two cases the
    call does return a payload when [data_message] is false or a
    dictionary. *)
Theorem time_to_live_rule (a : PayloadArgs) :
  kwargs_ok a = true →
  (truthy (time_to_live a) = true → isinstance_int (time_to_live a) = false →
   raises a time_to_live_error)
  ∧ (truthy (time_to_live a) = true → isinstance_int (time_to_live a) = true →
     (∀ e, raises a e → e = data_message_error)
     ∧ (∀ p, builds a p → p !! "time_to_live" = Some (time_to_live a))
     ∧ (truthy (data_message a) = false ∨ isinstance_dict (data_message a) = true →
        ∃ p, builds a p))
  ∧ (truthy (time_to_live a) = false →
     (∀ e, raises a e → e = data_message_error)
     ∧ (∀ p, builds a p → p !! "time_to_live" = None)
     ∧ (truthy (data_message a) = false ∨ isinstance_dict (data_message a) = true →
        ∃ p, builds a p)).
Proof.
  intros Hok.
  pose proof (parse_payload_fields_cases a) as Hcases.
  unfold time_to_live_error, data_message_error.
  split; [| split].
  - intros Ht Hi. apply raises_iff.
    destruct Hcases as [(_ & _ & Hr) | [(Hc & _) | (Hc & _)]]; [done | |];
      destruct Hc; congruence.
  - intros Ht Hi. split; [| split].
    + intros e [He _].
      destruct Hcases as [(_ & ? & _) | [(_ & _ & _ & Hr) | (_ & _ & p & Hr)]];
        congruence.
    + intros p [Hp _]. rewrite (lookup_payload_time_to_live a p Hok Hp).
      by rewrite Ht.
    + intros Hd.
      destruct Hcases as [(_ & ? & _) | [(_ & ? & ? & _) | (_ & _ & p & Hr)]];
        [congruence | destruct Hd; congruence |].
      exists p. by apply builds_iff.
  - intros Ht. split; [| split].
    + intros e [He _].
      destruct Hcases as [(? & _) | [(_ & _ & _ & Hr) | (_ & _ & p & Hr)]];
        congruence.
    + intros p [Hp _]. rewrite (lookup_payload_time_to_live a p Hok Hp).
      by rewrite Ht.
    + intros Hd.
      destruct Hcases as [(? & _) | [(_ & ? & ? & _) | (_ & _ & p & Hr)]];
        [congruence | destruct Hd; congruence |].
      exists p. by apply builds_iff.
Qed.

Lemma time_to_live_rule_witness :
  kwargs_ok (call None None PNone PNone PNone (PInt 3600) PNone ∅) = true
  ∧ ∃ p, builds (call None None PNone PNone PNone (PInt 3600) PNone ∅) p
         ∧ p !! "time_to_live" = Some (PInt 3600).
Proof.
  split; [reflexivity |].
  destruct (time_to_live_rule
              (call None None PNone PNone PNone (PInt 3600) PNone ∅))
    as (_ & Hint & _); [reflexivity |].
  destruct Hint as (_ & Hkey & Hbuilt); [reflexivity | reflexivity |].
  destruct Hbuilt as [p Hp]; [left; reflexivity |].
  exists p. split; [exact Hp | exact (Hkey p Hp)].
Defined.

(** ** The data payload (C4) *)

(** The [data] key of a returned payload. *)
Lemma lookup_payload_data (a : PayloadArgs) (p : gmap string PyVal) :
  parse_payload_fields a = Return p →
  p !! "data"
  = match extra_kwargs a !! "data" with
    | Some v => Some v
    | None => if truthy (data_message a) then Some (data_message a) else None
    end.
Proof.
  intros Hp.
  destruct (parse_payload_fields_inv a p Hp) as (p1 & p2 & p3 & H1 & H2 & H3 & ->).
  rewrite lookup_put_extra.
  destruct (extra_kwargs a !! "data"); [done |].
  rewrite lookup_put_notification_ne by done.
  unfold put_data in H3.
  destruct (truthy (data_message a)).
  - destruct (isinstance_dict (data_message a)); simplify_eq.
    by rewrite lookup_insert_eq.
  - simplify_eq. rewrite !lookup_set_if_ne by done.
    rewrite (lookup_put_time_to_live_ne _ _ _ _ H2) by done.
    rewrite !lookup_set_if_ne by done.
    rewrite lookup_put_priority_ne, lookup_put_target_ne by done.
    by rewrite (lookup_put_recipients_ne _ _ _ _ H1).
Qed.

(** C4, as the claim has it, fails on values that Python counts as false.
    The empty list is present and not a mapping, and no exception is
    raised; the empty dictionary is present and a mapping, and the payload
    has no [data] key. *)
Lemma data_message_false_values_skipped :
  (∃ p, builds (call None None PNone PNone PNone PNone (PList []) ∅) p)
  ∧ (∃ p, builds (call None None PNone PNone PNone PNone (PDict ∅) ∅) p
          ∧ p !! "data" = None).
Proof.
  split.
  - eexists. apply builds_iff. reflexivity.
  - eexists. split; [apply builds_iff; reflexivity | vm_compute; reflexivity].
Qed.

(** C4, amended: for every call of [parse_payload], with [data_message]
    true in Python's sense (so not [None] and not empty) and not a
    dictionary, the call raises [InvalidDataError]; with [data_message] a
    non-empty dictionary, the only exception the call can raise is the one
    about [time_to_live], the call returns a payload when [time_to_live] is
    false or an [int], and every payload it returns holds the dictionary
    under [data], unless an extra keyword argument named [data] was passed,
    whose value then stands there; with [data_message] false in Python's
    sense ([None], or an empty list, dictionary or string), no exception is
    raised on its account and the returned payload has no [data] key but an
    extra keyword argument's. *)
Theorem data_message_rule (a : PayloadArgs) :
  (truthy (data_message a) = true → isinstance_dict (data_message a) = false →
   ∃ msg, raises a (InvalidDataError msg))
  ∧ (truthy (data_message a) = true → isinstance_dict (data_message a) = true →
     (∀ e, raises a e → e = time_to_live_error)
     ∧ (∀ p, builds a p →
          p !! "data" = Some (default (data_message a) (extra_kwargs a !! "data")))
     ∧ (truthy (time_to_live a) = false ∨ isinstance_int (time_to_live a) = true →
        ∃ p, builds a p))
  ∧ (truthy (data_message a) = false →
     (∀ e, raises a e → e = time_to_live_error)
     ∧ (∀ p, builds a p → p !! "data" = extra_kwargs a !! "data")
     ∧ (truthy (time_to_live a) = false ∨ isinstance_int (time_to_live a) = true →
        ∃ p, builds a p)).
Proof.
  pose proof (parse_payload_fields_cases a) as Hcases.
  unfold time_to_live_error.
  split; [| split].
  - intros Ht Hi.
    destruct Hcases as [(_ & _ & Hr) | [(_ & _ & _ & Hr) | (_ & Hc & _)]].
    + eexists. by apply raises_iff.
    + eexists. by apply raises_iff.
    + destruct Hc; congruence.
  - intros Ht Hi. split; [| split].
    + intros e [He _].
      destruct Hcases as [(_ & _ & Hr) | [(_ & _ & ? & _) | (_ & _ & p & Hr)]];
        congruence.
    + intros p [Hp _]. rewrite (lookup_payload_data a p Hp), Ht.
      by destruct (extra_kwargs a !! "data").
    + intros Hd.
      destruct Hcases as [(? & ? & _) | [(_ & _ & ? & _) | (_ & _ & p & Hr)]];
        [destruct Hd; congruence | congruence |].
      exists p. by apply builds_iff.
  - intros Ht. split; [| split].
    + intros e [He _].
      destruct Hcases as [(_ & _ & Hr) | [(_ & ? & _) | (_ & _ & p & Hr)]];
        congruence.
    + intros p [Hp _]. rewrite (lookup_payload_data a p Hp), Ht.
      by destruct (extra_kwargs a !! "data").
    + intros Hd.
      destruct Hcases as [(? & ? & _) | [(_ & ? & _) | (_ & _ & p & Hr)]];
        [destruct Hd; congruence | congruence |].
      exists p. by apply builds_iff.
Qed.

Lemma data_message_rule_witness :
  (∃ p, builds (call None None PNone PNone PNone PNone
                  (PDict {["k" := PStr "v"]}) ∅) p
        ∧ p !! "data" = Some (PDict {["k" := PStr "v"]}))
  ∧ (∃ msg, raises (call None None PNone PNone PNone PNone
                      (PList [PStr "k"]) ∅) (InvalidDataError msg)).
Proof.
  split.
  - destruct (data_message_rule
                (call None None PNone PNone PNone PNone
                   (PDict {["k" := PStr "v"]}) ∅))
      as (_ & Hdict & _).
    destruct Hdict as (_ & Hkey & Hbuilt); [reflexivity | reflexivity |].
    destruct Hbuilt as [p Hp]; [left; reflexivity |].
    exists p. split; [exact Hp | exact (Hkey p Hp)].
  - destruct (data_message_rule
                (call None None PNone PNone PNone PNone (PList [PStr "k"]) ∅))
      as (Hbad & _).
    apply Hbad; reflexivity.
Defined.

(** ** Condition and topic (C6) *)

(** C6, as the claim has it, fails when the caller also passes an extra
    keyword argument named [to]: with the topic name [news], no condition
    and [to="device-1"], the target field holds [device-1], not the topic
    path, because the extra arguments are merged into the payload last. *)
Lemma topic_target_replaced_by_extra :
  kwargs_ok (call None (Some "news") PNone PNone PNone PNone PNone
               {["to" := PStr "device-1"]}) = true
  ∧ ∃ p, builds (call None (Some "news") PNone PNone PNone PNone PNone
                   {["to" := PStr "device-1"]}) p
         ∧ p !! "to" = Some (PStr "device-1")
         ∧ p !! "to" ≠ Some (PStr "/topics/news").
Proof.
  split; [reflexivity |].
  eexists. split; [apply builds_iff; reflexivity |].
  split; [vm_compute; reflexivity | vm_compute; discriminate].
Qed.

(** With a condition, the topic name is never read. *)
Lemma parse_payload_fields_ignores_topic (a : PayloadArgs) (t : option string) :
  truthy (condition a) = true →
  parse_payload_fields (with_topic_name t a) = parse_payload_fields a.
Proof.
  intros Hc. unfold parse_payload_fields.
  assert (∀ p, put_target (with_topic_name t a) p = put_target a p) as Htarget.
  { intros p. unfold put_target. cbn [condition with_topic_name]. by rewrite Hc. }
  change (put_recipients (with_topic_name t a) ∅) with (put_recipients a ∅).
  destruct (put_recipients a ∅) as [p1|e]; [| done].
  cbn [mbind Outcome_bind]. by rewrite Htarget.
Qed.

(** C6, amended: for every call of [parse_payload] in which a condition is
    given (true in Python's sense), the call does exactly what it does
    without the topic name, whatever topic name is given, and every payload
    it returns holds the condition under [condition]; in every call without
    a condition and with a non-empty topic name, the returned payload has
    no [condition] key and its target field [to] holds [/topics/] followed
    by the topic name, unless an extra keyword argument named [to] was
    passed, whose value then stands there. *)
Theorem condition_over_topic (a : PayloadArgs) :
  kwargs_ok a = true →
  (truthy (condition a) = true →
   (∀ t json_encode, parse_payload json_encode (with_topic_name t a)
                     = parse_payload json_encode a)
   ∧ (∀ p, builds a p → p !! "condition" = Some (condition a)))
  ∧ (truthy (condition a) = false →
     ∀ t, topic_name a = Some t → t ≠ "" →
     ∀ p, builds a p →
       p !! "condition" = None
       ∧ p !! "to" = Some (default (PStr ("/topics/" ++ t))
                             (extra_kwargs a !! "to"))).
Proof.
  intros Hok.
  assert (extra_kwargs a !! "condition" = None) as Hx
    by (apply kwargs_ok_lookup; [done | unfold parameter_names; set_solver]).
  split.
  - intros Hc. split.
    + intros t enc. unfold parse_payload.
      by rewrite parse_payload_fields_ignores_topic.
    + intros p [Hp _].
      destruct (lookup_payload_early a p "condition" Hp) as (p1 & H1 & ->);
        try done.
      rewrite Hx, lookup_put_priority_ne by done.
      unfold put_target. rewrite Hc. by rewrite lookup_insert_eq.
  - intros Hc t Ht Hne p [Hp _].
    assert (truthy (str_val (topic_name a)) = true) as Htopic.
    { rewrite Ht. simpl. by destruct t. }
    split.
    + destruct (lookup_payload_early a p "condition" Hp) as (p1 & H1 & ->);
        try done.
      rewrite Hx, lookup_put_priority_ne by done.
      unfold put_target. rewrite Hc, Htopic.
      rewrite lookup_insert_ne by done.
      by rewrite (lookup_put_recipients_ne _ _ _ _ H1).
    + destruct (lookup_payload_early a p "to" Hp) as (p1 & H1 & ->); try done.
      destruct (extra_kwargs a !! "to"); [done |].
      rewrite lookup_put_priority_ne by done.
      unfold put_target. rewrite Hc, Htopic, Ht.
      by rewrite lookup_insert_eq.
Qed.

Lemma condition_over_topic_witness :
  (∃ p, builds (call None (Some "news") PNone PNone
                  (PStr "'a' in topics || 'b' in topics") PNone PNone ∅) p
        ∧ p !! "condition" = Some (PStr "'a' in topics || 'b' in topics"))
  ∧ (∃ p, builds (call None (Some "news") PNone PNone PNone PNone PNone ∅) p
          ∧ p !! "to" = Some (PStr "/topics/news")).
Proof.
  split.
  - destruct (condition_over_topic
                (call None (Some "news") PNone PNone
                   (PStr "'a' in topics || 'b' in topics") PNone PNone ∅))
      as ((_ & Hcond) & _); [reflexivity | reflexivity |].
    eexists. split; [apply builds_iff; reflexivity |].
    apply Hcond, builds_iff. reflexivity.
  - destruct (condition_over_topic
                (call None (Some "news") PNone PNone PNone PNone PNone ∅))
      as (_ & Htopic); [reflexivity |].
    eexists. split; [apply builds_iff; reflexivity |].
    refine (proj2 (Htopic eq_refl "news" eq_refl _ _ _)); [discriminate |].
    apply builds_iff. reflexivity.
Defined.

(** ** Notification or silent delivery (C7, C8) *)

(** No statement before the last two sets [notification] or
    [content_available]; the branch on [message_body] sets one of them, and
    an extra keyword argument of that name replaces it. *)
Lemma lookup_payload_late (a : PayloadArgs) (p : gmap string PyVal) (k : string) :
  parse_payload_fields a = Return p →
  k = "notification" ∨ k = "content_available" →
  p !! k = match extra_kwargs a !! k with
           | Some v => Some v
           | None => put_notification a ∅ !! k
           end.
Proof.
  intros Hp Hk.
  destruct (parse_payload_fields_inv a p Hp) as (p1 & p2 & p3 & H1 & H2 & H3 & ->).
  rewrite lookup_put_extra.
  destruct (extra_kwargs a !! k); [done |].
  assert (p3 !! k = None) as Hnone.
  { rewrite (lookup_put_data_ne _ _ _ _ H3) by (destruct Hk; by subst).
    rewrite !lookup_set_if_ne by (destruct Hk; by subst).
    rewrite (lookup_put_time_to_live_ne _ _ _ _ H2) by (destruct Hk; by subst).
    rewrite !lookup_set_if_ne by (destruct Hk; by subst).
    rewrite lookup_put_priority_ne, lookup_put_target_ne
      by (destruct Hk; by subst).
    by rewrite (lookup_put_recipients_ne _ _ _ _ H1) by (destruct Hk; by subst). }
  unfold put_notification. destruct (truthy (message_body a)).
  - destruct (decide (k = "notification")) as [-> | Hne].
    + by rewrite !lookup_insert_eq.
    + by rewrite !lookup_insert_ne, Hnone, lookup_empty.
  - destruct (decide (k = "content_available")) as [-> | Hne].
    + by rewrite !lookup_insert_eq.
    + by rewrite !lookup_insert_ne, Hnone, lookup_empty.
Qed.

(** The [sound] key of the notification object that the function builds. *)
Lemma lookup_notification_sound (a : PayloadArgs) :
  notification a !! "sound" = if truthy (sound a) then Some (sound a) else None.
Proof.
  unfold notification. rewrite lookup_set_if_eq.
  destruct (truthy (sound a)); [done |].
  rewrite !lookup_set_if_ne by done.
  by rewrite !lookup_insert_ne, lookup_empty.
Qed.

(** C7, as the claim has it, fails when the caller passes an extra keyword
    argument named [notification]: no message body is given, and the
    payload has a [notification] key all the same, because the extra
    arguments are merged into the payload last. *)
Lemma silent_payload_with_extra_notification :
  kwargs_ok (call None None PNone PNone PNone PNone PNone
               {["notification" := PDict {["body" := PStr "hi"]}]}) = true
  ∧ ∃ p, builds (call None None PNone PNone PNone PNone PNone
                   {["notification" := PDict {["body" := PStr "hi"]}]}) p
         ∧ p !! "notification" = Some (PDict {["body" := PStr "hi"]})
         ∧ p !! "notification" ≠ None.
Proof.
  split; [reflexivity |].
  eexists. split; [apply builds_iff; reflexivity |].
  split; [vm_compute; reflexivity | vm_compute; discriminate].
Qed.

(** C7, amended: for every call of [parse_payload] with no message body
    (or one that is false in Python's sense) that returns a payload, the
    payload holds [content_available] set to true and has no [notification]
    key, unless an extra keyword argument named [content_available] or
    [notification] was passed, whose value then stands under that key; and
    when a data message is given besides, the payload holds it under
    [data], with the same proviso. *)
Theorem silent_payload (a : PayloadArgs) (p : gmap string PyVal) :
  truthy (message_body a) = false →
  builds a p →
  p !! "content_available"
  = Some (default (PBool true) (extra_kwargs a !! "content_available"))
  ∧ p !! "notification" = extra_kwargs a !! "notification"
  ∧ (truthy (data_message a) = true →
     p !! "data" = Some (default (data_message a) (extra_kwargs a !! "data"))).
Proof.
  intros Hbody [Hp _]. split; [| split].
  - rewrite (lookup_payload_late a p "content_available" Hp) by (by right).
    destruct (extra_kwargs a !! "content_available"); [done |].
    unfold put_notification. rewrite Hbody. by rewrite lookup_insert_eq.
  - rewrite (lookup_payload_late a p "notification" Hp) by (by left).
    destruct (extra_kwargs a !! "notification"); [done |].
    unfold put_notification. rewrite Hbody.
    by rewrite lookup_insert_ne, lookup_empty.
  - intros Hdata. rewrite (lookup_payload_data a p Hp), Hdata.
    by destruct (extra_kwargs a !! "data").
Qed.

(** The call of the spec's example: no message body and
    [data_message={"k": "v"}]. *)
Lemma silent_payload_witness :
  ∃ p, builds (call None None PNone PNone PNone PNone
                 (PDict {["k" := PStr "v"]}) ∅) p
       ∧ p !! "content_available" = Some (PBool true)
       ∧ p !! "notification" = None
       ∧ p !! "data" = Some (PDict {["k" := PStr "v"]}).
Proof.
  eexists. split; [apply builds_iff; reflexivity |].
  match goal with
  | |- ?p !! _ = _ ∧ _ =>
      destruct (silent_payload
                  (call None None PNone PNone PNone PNone
                     (PDict {["k" := PStr "v"]}) ∅) p)
        as (Hc & Hn & Hd); [reflexivity | apply builds_iff; reflexivity |]
  end.
  split; [exact Hc | split; [exact Hn | apply Hd; reflexivity]].
Defined.

(** C8, as the claim has it, fails when the caller passes an extra keyword
    argument named [notification]: with the message body [hi] and [sound]
    at [None], the notification object of the payload is the caller's, and
    it has a [sound] key. *)
Lemma notification_sound_from_extra :
  kwargs_ok (call None None (PStr "hi") PNone PNone PNone PNone
               {["notification" := PDict {["sound" := PStr "default"]}]}) = true
  ∧ ∃ p n, builds (call None None (PStr "hi") PNone PNone PNone PNone
                     {["notification" := PDict {["sound" := PStr "default"]}]}) p
           ∧ p !! "notification" = Some (PDict n)
           ∧ n !! "sound" = Some (PStr "default")
           ∧ n !! "sound" ≠ None.
Proof.
  split; [reflexivity |].
  eexists. exists {["sound" := PStr "default"]}.
  split; [apply builds_iff; reflexivity |].
  split; [vm_compute; reflexivity |].
  split; [vm_compute; reflexivity | vm_compute; discriminate].
Qed.

(** C8, amended: for every call of [parse_payload] with a message body
    given that returns a payload, the notification object that the function
    builds has a [sound] key exactly when [sound] is true in Python's sense
    (so none when [sound] is [None] or the empty string), and the key then
    holds [sound]; that object stands under [notification] in the payload,
    unless an extra keyword argument named [notification] was passed, whose
    value then stands there. *)
Theorem notification_sound (a : PayloadArgs) (p : gmap string PyVal) :
  truthy (message_body a) = true →
  builds a p →
  p !! "notification"
  = Some (default (PDict (notification a)) (extra_kwargs a !! "notification"))
  ∧ notification a !! "sound"
    = (if truthy (sound a) then Some (sound a) else None)
  ∧ (sound a = PNone → notification a !! "sound" = None).
Proof.
  intros Hbody [Hp _]. split; [| split].
  - rewrite (lookup_payload_late a p "notification" Hp) by (by left).
    destruct (extra_kwargs a !! "notification"); [done |].
    unfold put_notification. rewrite Hbody. by rewrite lookup_insert_eq.
  - apply lookup_notification_sound.
  - intros Hs. rewrite lookup_notification_sound. by rewrite Hs.
Qed.

(** The call of the spec's example: [message_body="hi"], [sound=None]. *)
Lemma notification_sound_witness :
  ∃ p n, builds (call None None (PStr "hi") PNone PNone PNone PNone ∅) p
         ∧ p !! "notification" = Some (PDict n)
         ∧ n !! "sound" = None.
Proof.
  eexists. exists (notification (call None None (PStr "hi") PNone PNone PNone PNone ∅)).
  split; [apply builds_iff; reflexivity |].
  match goal with
  | |- ?p !! _ = _ ∧ _ =>
      destruct (notification_sound
                  (call None None (PStr "hi") PNone PNone PNone PNone ∅) p)
        as (Hn & _ & Hs); [reflexivity | apply builds_iff; reflexivity |]
  end.
  split; [exact Hn | apply Hs; reflexivity].
Defined.

(** * Properties of the response parser *)

Example int_of_decimal_examples :
  int_of_decimal "0" = Some 0%Z ∧ int_of_decimal "157" = Some 157%Z
  ∧ int_of_decimal "-3" = Some (-3)%Z ∧ int_of_decimal "" = None
  ∧ int_of_decimal "12a" = None ∧ int_of_decimal "-" = None.
Proof. repeat split; reflexivity. Qed.

Section response_properties.
Variable int_of_str : string → option Z.

(** An answer declared empty is not decoded. *)
Lemma parse_response_empty (response : Response) (v : string) (n : Z) :
  headers response !! "content-length" = Some v →
  int_of_str v = Some n →
  (n ≤ 0)%Z →
  parse_response int_of_str response = Return (PDict ∅).
Proof.
  intros Hv Hn Hle. unfold parse_response, py_int. rewrite Hv, Hn.
  cbn [mbind Outcome_bind].
  by destruct (Z.leb_spec n 0); [| lia].
Qed.

(** The dictionary returned for a body that decodes to the JSON object
    [d]. *)
Lemma parse_response_object (response : Response) (d : gmap string PyVal) :
  body_expected int_of_str response →
  json response = Return (PDict d) →
  parse_response int_of_str response
  = Return (PDict (<["multicast_id" := default PNone (d !! "multicast_id")]>
                  (<["success" := default (PInt 0) (d !! "success")]>
                  (<["failure" := default (PInt 0) (d !! "failure")]>
                  (<["canonical_ids" := default (PInt 0) (d !! "canonical_ids")]>
                  (<["results" := default (PList []) (d !! "results")]> ∅)))))).
Proof.
  intros Hbody Hjson. unfold parse_response, py_int.
  assert (match headers response !! "content-length" with
          | Some v =>
              match int_of_str v with
              | Some n => Return n
              | None => Raise ValueError
              end ≫= λ n, Return (n <=? 0)%Z
          | None => Return false
          end = Return false) as ->.
  { destruct Hbody as [-> | (v & n & -> & -> & Hpos)]; [done |].
    cbn [mbind Outcome_bind]. by destruct (Z.leb_spec n 0); [lia |]. }
  cbn [mbind Outcome_bind]. rewrite Hjson. reflexivity.
Qed.
End response_properties.

(** C9: for every answer handed to [parse_response] (the answer of a
    status-200 response): if it declares a content length that is zero or
    negative, the result is the empty dictionary, whatever the body is and
    whether it is JSON at all; otherwise, for a body that decodes to a JSON
    object, the result holds under [success], [failure] and
    [canonical_ids] the object's field of that name or 0 when it is
    missing, under [results] the object's [results] or the empty list, and
    under [multicast_id] the object's [multicast_id] or [None]. *)
Theorem parse_response_spec (int_of_str : string → option Z)
    (response : Response) :
  (∀ v n, headers response !! "content-length" = Some v →
          int_of_str v = Some n → (n ≤ 0)%Z →
          parse_response int_of_str response = Return (PDict ∅))
  ∧ (∀ d, body_expected int_of_str response →
          json response = Return (PDict d) →
          ∃ res, parse_response int_of_str response = Return (PDict res)
                 ∧ res !! "success" = Some (default (PInt 0) (d !! "success"))
                 ∧ res !! "failure" = Some (default (PInt 0) (d !! "failure"))
                 ∧ res !! "canonical_ids"
                   = Some (default (PInt 0) (d !! "canonical_ids"))
                 ∧ res !! "results" = Some (default (PList []) (d !! "results"))
                 ∧ res !! "multicast_id"
                   = Some (default PNone (d !! "multicast_id"))).
Proof.
  split.
  - intros v n. apply parse_response_empty.
  - intros d Hbody Hjson. eexists.
    split; [by apply parse_response_object |].
    repeat split;
      repeat first [ by rewrite lookup_insert_eq
                   | rewrite lookup_insert_ne by done ].
Qed.

Lemma parse_response_spec_witness :
  parse_response int_of_decimal empty_ok = Return (PDict ∅)
  ∧ ∃ res, parse_response int_of_decimal counted_ok = Return (PDict res)
           ∧ res !! "success" = Some (PInt 1)
           ∧ res !! "failure" = Some (PInt 0)
           ∧ res !! "canonical_ids" = Some (PInt 0)
           ∧ res !! "results" = Some (PList [PDict {["message_id" := PStr "abc"]}])
           ∧ res !! "multicast_id" = Some PNone.
Proof.
  split.
  - apply (proj1 (parse_response_spec int_of_decimal empty_ok) "0" 0%Z);
      first [reflexivity | lia].
  - apply (proj2 (parse_response_spec int_of_decimal counted_ok) counters);
      [| reflexivity].
    right. exists "78", 78%Z. repeat split; first [reflexivity | lia].
Defined.

(** C10: for every answer that does not declare an empty body and whose
    body decodes to a JSON object, the dictionary returned by
    [parse_response] has exactly the five keys [multicast_id], [success],
    [failure], [canonical_ids] and [results], and no [message_id] key,
    whether or not the object has a [message_id] field: the field is read
    and dropped. *)
Theorem parse_response_keys (int_of_str : string → option Z)
    (response : Response) (d : gmap string PyVal) :
  body_expected int_of_str response →
  json response = Return (PDict d) →
  ∃ res, parse_response int_of_str response = Return (PDict res)
         ∧ dom res = {["multicast_id"; "success"; "failure"; "canonical_ids";
                       "results"]}
         ∧ res !! "message_id" = None.
Proof.
  intros Hbody Hjson. eexists.
  split; [by apply parse_response_object |]. split.
  - rewrite !dom_insert_L, dom_empty_L. set_solver.
  - by rewrite !lookup_insert_ne, lookup_empty.
Qed.

Lemma parse_response_keys_witness :
  json topic_ok = Return (PDict (<["message_id" := PInt 42]> counters))
  ∧ ∃ res, parse_response int_of_decimal topic_ok = Return (PDict res)
           ∧ dom res = {["multicast_id"; "success"; "failure"; "canonical_ids";
                         "results"]}
           ∧ res !! "message_id" = None.
Proof.
  split; [reflexivity |].
  apply (parse_response_keys int_of_decimal topic_ok
           (<["message_id" := PInt 42]> counters)); [| reflexivity].
  left. reflexivity.
Defined.

(** * Properties of the transport *)

(** Without proxies the payload is posted once and that answer is kept;
    with proxies it is posted twice and the second answer is kept. *)
Lemma receive_direct (fcm_server : list Request → Request → Outcome Response)
    (self : BaseAPI) (payload : string) (sent : list Request) (r : Response) :
  truthy (proxies_val (FCM_REQ_PROXIES self)) = false →
  fcm_server sent {| url := FCM_END_POINT;
                     request_hdrs := request_headers self;
                     data := payload;
                     proxies := None |} = Return r →
  receive fcm_server self payload sent
  = (Return r, (sent ++ [{| url := FCM_END_POINT;
                            request_hdrs := request_headers self;
                            data := payload;
                            proxies := None |}])%list).
Proof.
  intros Hprox Hr. unfold receive, requests_post.
  unfold mbind, Net_bind, mret, Net_ret. rewrite Hr, Hprox. reflexivity.
Qed.

(** The loop never reaches a second payload: its body returns or raises. *)
Lemma send_request_first_only (int_of_str : string → option Z)
    (fcm_server : list Request → Request → Outcome Response)
    (self : BaseAPI) (payload : string) (rest : list string)
    (sent : list Request) :
  send_request int_of_str fcm_server self (payload :: rest) sent
  = send_request int_of_str fcm_server self [payload] sent.
Proof.
  unfold send_request. cbn [for_each]. unfold mbind, Net_bind, mret, Net_ret.
  destruct (send_payload int_of_str fcm_server self payload sent)
    as [[[v|] | e] sent'] eqn:Hbody; try reflexivity.
  exfalso. revert Hbody. unfold send_payload. unfold mbind, Net_bind, mret, Net_ret.
  destruct (receive fcm_server self payload sent) as [[r | e] sent1];
    [| discriminate].
  unfold classify, raise, lift.
  repeat (destruct (_ =? _)%Z; try discriminate).
  unfold mbind, Net_bind, mret, Net_ret.
  destruct (parse_response int_of_str r); discriminate.
Qed.

(** C5: for every answer that [send_request] receives for a payload, the
    call ends in exactly one of four ways, chosen by the status code: on
    200 it ends as [parse_response] does on that answer, on 401 it raises
    [AuthenticationError], on 400 it raises [InternalPackageError] carrying
    the text of the answer, and on every other status it raises
    [FCMServerError], the error of an unavailable server.  The four cases
    exclude one another by their status. *)
Theorem send_request_classifies (int_of_str : string → option Z)
    (fcm_server : list Request → Request → Outcome Response)
    (self : BaseAPI) (payload : string) (rest : list string)
    (sent sent' : list Request) (r : Response) :
  receive fcm_server self payload sent = (Return r, sent') →
  (status_code r = 200%Z
   ∧ send_request int_of_str fcm_server self (payload :: rest) sent
     = (parse_response int_of_str r, sent'))
  ∨ (status_code r = 401%Z
     ∧ send_request int_of_str fcm_server self (payload :: rest) sent
       = (Raise (AuthenticationError
                   "There was an error authenticating the sender account"),
          sent'))
  ∨ (status_code r = 400%Z
     ∧ send_request int_of_str fcm_server self (payload :: rest) sent
       = (Raise (InternalPackageError (text r)), sent'))
  ∨ (status_code r ≠ 200%Z ∧ status_code r ≠ 401%Z ∧ status_code r ≠ 400%Z
     ∧ send_request int_of_str fcm_server self (payload :: rest) sent
       = (Raise (FCMServerError "FCM server is temporarily unavailable"),
          sent')).
Proof.
  intros Hrecv. unfold send_request. cbn [for_each]. unfold mbind, Net_bind, mret, Net_ret.
  unfold send_payload. unfold mbind, Net_bind, mret, Net_ret. rewrite Hrecv.
  unfold classify, raise, lift.
  destruct (Z.eqb_spec (status_code r) 200) as [H200 | H200].
  - left. split; [done |]. unfold mbind, Net_bind, mret, Net_ret.
    by destruct (parse_response int_of_str r).
  - destruct (Z.eqb_spec (status_code r) 401) as [H401 | H401].
    + right; left. by split.
    + destruct (Z.eqb_spec (status_code r) 400) as [H400 | H400].
      * right; right; left. by split.
      * right; right; right. by repeat split.
Qed.

Lemma send_request_classifies_witness :
  status_code bad_request = 400%Z
  ∧ fst (send_request int_of_decimal (always bad_request) direct_client
           ["{}"; "{}"] [])
    = Raise (InternalPackageError "InvalidRegistration").
Proof.
  split; [reflexivity |].
  destruct (send_request_classifies int_of_decimal (always bad_request)
              direct_client "{}" ["{}"] []
              [{| url := FCM_END_POINT;
                  request_hdrs := request_headers direct_client;
                  data := "{}";
                  proxies := None |}]
              bad_request)
    as [[H _] | [[H _] | [[_ Hout] | (_ & _ & H & _)]]];
    [reflexivity | discriminate H | discriminate H | | by destruct H].
  rewrite Hout. reflexivity.
Defined.

(** A 200 answer with [content-length: 0] comes back as the empty
    dictionary. *)
Example send_request_empty_ok :
  fst (send_request int_of_decimal (always empty_ok) direct_client ["{}"] [])
  = Return (PDict ∅).
Proof. reflexivity. Qed.

(** * Properties of the constructor *)

(** X1: the constructor raises [AuthenticationError] exactly when no
    non-empty key is passed and the environment holds no non-empty
    [FCM_API_KEY]; otherwise it returns a client whose key is the argument
    when that is non-empty, whatever the environment holds, and the
    environment's key otherwise.  The proxy argument never makes it
    raise. *)
Theorem init_key (env : gmap string string) (api_key : option string)
    (proxy_dict : PyVal) :
  (truthy (str_val api_key) = true
   ∧ ∃ self, init env api_key proxy_dict = Return self
             ∧ Some (_FCM_API_KEY self) = api_key)
  ∨ (truthy (str_val api_key) = false
     ∧ truthy (str_val (env !! "FCM_API_KEY")) = true
     ∧ ∃ self, init env api_key proxy_dict = Return self
               ∧ Some (_FCM_API_KEY self) = env !! "FCM_API_KEY")
  ∨ (truthy (str_val api_key) = false
     ∧ truthy (str_val (env !! "FCM_API_KEY")) = false
     ∧ init env api_key proxy_dict
       = Raise (AuthenticationError
                  "Please provide the api_key in the google-services.json file")).
Proof.
  unfold init.
  destruct (truthy (str_val api_key)) eqn:Hkey.
  - left. split; [done |]. eexists. split; [reflexivity |].
    destruct api_key; [done | discriminate].
  - right. destruct (truthy (str_val (env !! "FCM_API_KEY"))) eqn:Henv.
    + left. do 2 (split; [done |]). eexists. split; [reflexivity |].
      destruct (env !! "FCM_API_KEY"); [done | discriminate].
    + right. by repeat split.
Qed.

(** X2: a client that the constructor returns has no proxies, or proxies
    that are a dictionary with an [http] or an [https] entry and are the
    dictionary passed; so its proxies are true in Python's sense exactly
    when they are not [None], and a proxy argument of another shape (not a
    dictionary, empty, or without both entries) is dropped without an
    error. *)
Theorem init_proxies (env : gmap string string) (api_key : option string)
    (proxy_dict : PyVal) (self : BaseAPI) :
  init env api_key proxy_dict = Return self →
  (FCM_REQ_PROXIES self = None
   ∧ truthy (proxies_val (FCM_REQ_PROXIES self)) = false)
  ∨ (∃ d, FCM_REQ_PROXIES self = Some d
          ∧ proxy_dict = PDict d
          ∧ (is_Some (d !! "http") ∨ is_Some (d !! "https"))
          ∧ truthy (proxies_val (FCM_REQ_PROXIES self)) = true).
Proof.
  unfold init. intros Hinit.
  destruct (if truthy (str_val api_key) then _ else _) as [key | e];
    [| discriminate].
  cbn [mbind Outcome_bind] in Hinit. simplify_eq. cbn [FCM_REQ_PROXIES].
  destruct proxy_dict as [| b | z | f | s | l | d];
    try (left; split; [by repeat case_match | by repeat case_match]).
  cbn [isinstance_dict dict_has as_dict].
  destruct (truthy (PDict d)) eqn:Htruthy; [| by left].
  destruct (d !! "http") eqn:Hhttp; cbn [andb orb].
  - right. exists d. repeat split; eauto.
  - destruct (d !! "https") eqn:Hhttps; [| by left].
    right. exists d. repeat split; eauto.
Qed.

Lemma init_proxies_witness :
  ∃ self, init ∅ (Some "secret")
            (PDict {["https" := PStr "https://proxy.example:3128"]})
          = Return self
          ∧ FCM_REQ_PROXIES self
            = Some {["https" := PStr "https://proxy.example:3128"]}.
Proof.
  eexists. split; [reflexivity |].
  match goal with
  | |- FCM_REQ_PROXIES ?self = _ =>
      destruct (init_proxies ∅ (Some "secret")
                  (PDict {["https" := PStr "https://proxy.example:3128"]})
                  self)
        as [[Hnone _] | (d & Hsome & Hd & _)]; [reflexivity | |]
  end.
  - vm_compute in Hnone. discriminate Hnone.
  - rewrite Hsome. congruence.
Defined.

(** * Further properties of the payload builder *)

(** Walks a lookup back through the statements that cannot have set the
    key. *)
Ltac skip_statements H1 H2 H3 :=
  repeat first
    [ rewrite lookup_put_notification_ne by done
    | rewrite (lookup_put_data_ne _ _ _ _ H3) by done
    | rewrite (lookup_put_time_to_live_ne _ _ _ _ H2) by done
    | rewrite lookup_put_priority_ne by done
    | rewrite lookup_put_target_ne by done
    | rewrite (lookup_put_recipients_ne _ _ _ _ H1) by done
    | rewrite lookup_set_if_ne by done ].

(** X3: every extra keyword argument stands in the returned payload under
    its own name with its own value, whatever the named parameters put
    under that name before. *)
Theorem extra_kwargs_win (a : PayloadArgs) (p : gmap string PyVal)
    (k : string) (v : PyVal) :
  builds a p →
  extra_kwargs a !! k = Some v →
  p !! k = Some v.
Proof.
  intros [Hp _] Hk.
  destruct (parse_payload_fields_inv a p Hp) as (p1 & p2 & p3 & H1 & H2 & H3 & ->).
  by rewrite lookup_put_extra, Hk.
Qed.

Lemma extra_kwargs_win_witness :
  ∃ p, builds (call (Some ["abc"]) None PNone PNone PNone PNone PNone
                 {["to" := PStr "other"; "mutable_content" := PBool true]}) p
       ∧ p !! "to" = Some (PStr "other")
       ∧ p !! "mutable_content" = Some (PBool true).
Proof.
  eexists. split; [apply builds_iff; reflexivity |].
  split;
    (apply (extra_kwargs_win
              (call (Some ["abc"]) None PNone PNone PNone PNone PNone
                 {["to" := PStr "other"; "mutable_content" := PBool true]}));
     [apply builds_iff; reflexivity | vm_compute; reflexivity]).
Defined.

(** X4: every returned payload has a [priority]: [normal] when
    [low_priority] is true in Python's sense and [high] otherwise, unless
    an extra keyword argument named [priority] was passed, whose value then
    stands there. *)
Theorem priority_always_set (a : PayloadArgs) (p : gmap string PyVal) :
  builds a p →
  p !! "priority"
  = Some (default (PStr (if truthy (low_priority a)
                         then FCM_LOW_PRIORITY else FCM_HIGH_PRIORITY))
            (extra_kwargs a !! "priority")).
Proof.
  intros [Hp _].
  destruct (lookup_payload_early a p "priority" Hp) as (p1 & H1 & ->); try done.
  destruct (extra_kwargs a !! "priority"); [done |].
  unfold put_priority.
  destruct (truthy (low_priority a)); by rewrite lookup_insert_eq.
Qed.

Lemma priority_always_set_witness :
  ∃ p, builds (call None (Some "news") (PStr "hi") PNone PNone PNone PNone ∅) p
       ∧ p !! "priority" = Some (PStr "high").
Proof.
  eexists. split; [apply builds_iff; reflexivity |].
  match goal with
  | |- ?p !! _ = _ =>
      rewrite (priority_always_set
                 (call None (Some "news") (PStr "hi") PNone PNone PNone PNone ∅)
                 p)
        by (apply builds_iff; reflexivity)
  end.
  reflexivity.
Defined.

(** X5: the four optional delivery fields [delay_while_idle],
    [collapse_key], [restricted_package_name] and [dry_run] stand in the
    returned payload exactly when their parameter is true in Python's
    sense, and then with the parameter's value; no extra keyword argument
    can change them, since their names are parameter names. *)
Theorem delivery_options (a : PayloadArgs) (p : gmap string PyVal) :
  kwargs_ok a = true →
  builds a p →
  p !! "delay_while_idle"
  = (if truthy (delay_while_idle a) then Some (delay_while_idle a) else None)
  ∧ p !! "collapse_key"
    = (if truthy (collapse_key a) then Some (collapse_key a) else None)
  ∧ p !! "restricted_package_name"
    = (if truthy (restricted_package_name a)
       then Some (restricted_package_name a) else None)
  ∧ p !! "dry_run" = (if truthy (dry_run a) then Some (dry_run a) else None).
Proof.
  intros Hok [Hp _].
  destruct (parse_payload_fields_inv a p Hp) as (p1 & p2 & p3 & H1 & H2 & H3 & ->).
  repeat split; rewrite lookup_put_extra.
  - rewrite (kwargs_ok_lookup a "delay_while_idle" Hok)
      by (unfold parameter_names; set_solver).
    skip_statements H1 H2 H3. rewrite lookup_set_if_eq.
    destruct (truthy (delay_while_idle a)); [done |].
    by skip_statements H1 H2 H3.
  - rewrite (kwargs_ok_lookup a "collapse_key" Hok)
      by (unfold parameter_names; set_solver).
    skip_statements H1 H2 H3. rewrite lookup_set_if_eq.
    destruct (truthy (collapse_key a)); [done |].
    by skip_statements H1 H2 H3.
  - rewrite (kwargs_ok_lookup a "restricted_package_name" Hok)
      by (unfold parameter_names; set_solver).
    skip_statements H1 H2 H3. rewrite lookup_set_if_eq.
    destruct (truthy (restricted_package_name a)); [done |].
    by skip_statements H1 H2 H3.
  - rewrite (kwargs_ok_lookup a "dry_run" Hok)
      by (unfold parameter_names; set_solver).
    skip_statements H1 H2 H3. rewrite lookup_set_if_eq.
    destruct (truthy (dry_run a)); [done |].
    by skip_statements H1 H2 H3.
Qed.

Lemma delivery_options_witness :
  ∃ p, builds (call None (Some "news") PNone PNone PNone PNone PNone ∅) p
       ∧ p !! "delay_while_idle" = None
       ∧ p !! "dry_run" = None.
Proof.
  eexists. split; [apply builds_iff; reflexivity |].
  match goal with
  | |- ?p !! _ = _ ∧ _ =>
      destruct (delivery_options
                  (call None (Some "news") PNone PNone PNone PNone PNone ∅) p)
        as (Hd & _ & _ & Hr); [reflexivity | apply builds_iff; reflexivity |]
  end.
  split; [exact Hd | exact Hr].
Defined.


(** X7: the builder does not keep the addressing modes apart.  With more
    than one registration id, a non-empty topic name and no condition, the
    returned payload holds both the list of ids under [registration_ids]
    and the topic path under [to]; with more than one id and a condition it
    holds both the list and the condition. *)
Theorem mixed_addressing (a : PayloadArgs) (ids : list string)
    (p : gmap string PyVal) :
  kwargs_ok a = true →
  extra_kwargs a !! "to" = None →
  registration_ids a = Some ids →
  1 < length ids →
  builds a p →
  p !! "registration_ids" = Some (PList (PStr <$> ids))
  ∧ (truthy (condition a) = true →
     p !! "condition" = Some (condition a) ∧ p !! "to" = None)
  ∧ (truthy (condition a) = false →
     ∀ t, topic_name a = Some t → t ≠ "" →
          p !! "to" = Some (PStr ("/topics/" ++ t))).
Proof.
  intros Hok Hto Hids Hlen [Hp _].
  assert (extra_kwargs a !! "registration_ids" = None) as Hxr
    by (apply kwargs_ok_lookup; [done | unfold parameter_names; set_solver]).
  assert (extra_kwargs a !! "condition" = None) as Hxc
    by (apply kwargs_ok_lookup; [done | unfold parameter_names; set_solver]).
  assert (put_recipients a ∅
          = Return (<["registration_ids" := PList (PStr <$> ids)]> ∅)) as Hrec.
  { rewrite put_recipients_eq, Hids.
    destruct ids as [|r [|r' l]]; simpl in Hlen; [lia | lia | done]. }
  split; [| split].
  - destruct (lookup_payload_early a p "registration_ids" Hp) as (p1 & H1 & ->);
      try done.
    rewrite Hxr, lookup_put_priority_ne, lookup_put_target_ne by done.
    rewrite Hrec in H1. simplify_eq. by rewrite lookup_insert_eq.
  - intros Hc. split.
    + destruct (lookup_payload_early a p "condition" Hp) as (p1 & H1 & ->);
        try done.
      rewrite Hxc, lookup_put_priority_ne by done.
      unfold put_target. rewrite Hc. by rewrite lookup_insert_eq.
    + destruct (lookup_payload_early a p "to" Hp) as (p1 & H1 & ->); try done.
      rewrite Hto, lookup_put_priority_ne by done.
      unfold put_target. rewrite Hc. rewrite lookup_insert_ne by done.
      rewrite Hrec in H1. simplify_eq.
      by rewrite lookup_insert_ne, lookup_empty.
  - intros Hc t Ht Hne.
    destruct (lookup_payload_early a p "to" Hp) as (p1 & H1 & ->); try done.
    rewrite Hto, lookup_put_priority_ne by done.
    unfold put_target. rewrite Hc, Ht.
    assert (truthy (str_val (Some t)) = true) as -> by (simpl; by destruct t).
    by rewrite lookup_insert_eq.
Qed.

Lemma mixed_addressing_witness :
  ∃ p, builds (call (Some ["abc"; "def"]) (Some "news") PNone PNone PNone PNone
                 PNone ∅) p
       ∧ p !! "registration_ids" = Some (PList [PStr "abc"; PStr "def"])
       ∧ p !! "to" = Some (PStr "/topics/news").
Proof.
  eexists. split; [apply builds_iff; reflexivity |].
  match goal with
  | |- ?p !! _ = _ ∧ _ =>
      destruct (mixed_addressing
                  (call (Some ["abc"; "def"]) (Some "news") PNone PNone PNone
                     PNone PNone ∅) ["abc"; "def"] p)
        as (Hr & _ & Ht);
        [reflexivity | reflexivity | reflexivity | simpl; lia
        | apply builds_iff; reflexivity |]
  end.
  split; [exact Hr |]. apply (Ht eq_refl "news" eq_refl). discriminate.
Defined.

(** X8: the builder does not insist on a target.  Without recipients (none
    given, or an empty list), without a topic name and without a
    condition, the returned payload has none of the fields [to],
    [registration_ids] and [condition], unless an extra keyword argument
    named [to] supplies one. *)
Theorem no_target (a : PayloadArgs) (p : gmap string PyVal) :
  kwargs_ok a = true →
  truthy (ids_val (registration_ids a)) = false →
  truthy (str_val (topic_name a)) = false →
  truthy (condition a) = false →
  builds a p →
  p !! "to" = extra_kwargs a !! "to"
  ∧ p !! "registration_ids" = None
  ∧ p !! "condition" = None.
Proof.
  intros Hok Hids Htopic Hcond [Hp _].
  assert (put_recipients a ∅ = Return ∅) as Hrec
    by (unfold put_recipients; by rewrite Hids).
  assert (∀ k, put_priority a (put_target a ∅) !! k
               = if decide (k = "priority")
                 then put_priority a ∅ !! k else None) as Hearly.
  { intros k. unfold put_target. rewrite Hcond, Htopic.
    case_decide as Hk; [done |]. by rewrite lookup_put_priority_ne, lookup_empty. }
  repeat split.
  - destruct (lookup_payload_early a p "to" Hp) as (p1 & H1 & ->); try done.
    rewrite Hrec in H1. simplify_eq. rewrite Hearly.
    by destruct (extra_kwargs a !! "to").
  - destruct (lookup_payload_early a p "registration_ids" Hp) as (p1 & H1 & ->);
      try done.
    rewrite Hrec in H1. simplify_eq. rewrite Hearly.
    by rewrite (kwargs_ok_lookup a "registration_ids" Hok)
      by (unfold parameter_names; set_solver).
  - destruct (lookup_payload_early a p "condition" Hp) as (p1 & H1 & ->);
      try done.
    rewrite Hrec in H1. simplify_eq. rewrite Hearly.
    by rewrite (kwargs_ok_lookup a "condition" Hok)
      by (unfold parameter_names; set_solver).
Qed.

Lemma no_target_witness :
  ∃ p, builds (call (Some []) None (PStr "hi") PNone PNone PNone PNone ∅) p
       ∧ p !! "to" = None
       ∧ p !! "registration_ids" = None
       ∧ p !! "condition" = None.
Proof.
  eexists. split; [apply builds_iff; reflexivity |].
  match goal with
  | |- ?p !! _ = _ ∧ _ =>
      destruct (no_target
                  (call (Some []) None (PStr "hi") PNone PNone PNone PNone ∅) p)
        as (Ht & Hr & Hc);
        [reflexivity | reflexivity | reflexivity | reflexivity
        | apply builds_iff; reflexivity |]
  end.
  split; [rewrite Ht; reflexivity | split; [exact Hr | exact Hc]].
Defined.

(** Finishes a lookup in the notification object. *)
Ltac notification_key :=
  unfold notification;
  repeat (rewrite lookup_set_if_ne by done);
  try (rewrite lookup_set_if_eq; destruct (truthy _); [done |];
       repeat (rewrite lookup_set_if_ne by done));
  repeat first [ rewrite lookup_insert_eq | rewrite lookup_insert_ne by done ];
  rewrite ?lookup_empty; done.

(** X9: the notification object always has the keys [body], [title] and
    [icon], holding the parameters as they are (so [None] for a title or
    icon that was not given); each of the eight optional display fields is
    a key of it exactly when its parameter is true in Python's sense, and
    then holds the parameter; and it has no key outside the twelve
    notification fields. *)
Theorem notification_fields (a : PayloadArgs) :
  notification a !! "body" = Some (message_body a)
  ∧ notification a !! "title" = Some (message_title a)
  ∧ notification a !! "icon" = Some (message_icon a)
  ∧ notification a !! "click_action"
    = (if truthy (click_action a) then Some (click_action a) else None)
  ∧ notification a !! "badge"
    = (if truthy (badge a) then Some (badge a) else None)
  ∧ notification a !! "color"
    = (if truthy (color a) then Some (color a) else None)
  ∧ notification a !! "tag" = (if truthy (tag a) then Some (tag a) else None)
  ∧ notification a !! "body_loc_key"
    = (if truthy (body_loc_key a) then Some (body_loc_key a) else None)
  ∧ notification a !! "body_loc_args"
    = (if truthy (body_loc_args a) then Some (body_loc_args a) else None)
  ∧ notification a !! "title_loc_key"
    = (if truthy (title_loc_key a) then Some (title_loc_key a) else None)
  ∧ notification a !! "title_loc_args"
    = (if truthy (title_loc_args a) then Some (title_loc_args a) else None)
  ∧ (∀ k, k ∉ notification_keys → notification a !! k = None).
Proof.
  repeat split; try notification_key.
  intros k Hk.
  assert (∀ key, key ∈ notification_keys → key ≠ k) as Hne
    by (intros key Hin ->; done).
  unfold notification.
  rewrite !lookup_set_if_ne
    by (apply Hne; unfold notification_keys; solve [repeat constructor]).
  rewrite !lookup_insert_ne
    by (apply Hne; unfold notification_keys; solve [repeat constructor]).
  apply lookup_empty.
Qed.

(** X10: a returned payload has no key but the twelve that the statements
    of [parse_payload] set and the names of the extra keyword arguments. *)
Theorem payload_keys_bound (a : PayloadArgs) (p : gmap string PyVal)
    (k : string) :
  builds a p →
  is_Some (p !! k) →
  k ∈ payload_keys ∨ is_Some (extra_kwargs a !! k).
Proof.
  intros [Hp _] Hsome.
  destruct (decide (k ∈ payload_keys)) as [Hin | Hout]; [by left | right].
  assert (∀ key, key ∈ payload_keys → k ≠ key) as Hne
    by (intros key Hin ->; done).
  assert (k ≠ "registration_ids" ∧ k ≠ "to" ∧ k ≠ "condition" ∧ k ≠ "priority"
          ∧ k ≠ "delay_while_idle" ∧ k ≠ "collapse_key" ∧ k ≠ "time_to_live"
          ∧ k ≠ "restricted_package_name" ∧ k ≠ "dry_run" ∧ k ≠ "data"
          ∧ k ≠ "notification" ∧ k ≠ "content_available")
    as (Hk1 & Hk2 & Hk3 & Hk4 & Hk5 & Hk6 & Hk7 & Hk8 & Hk9 & Hk10 & Hk11 & Hk12)
    by (repeat split; apply Hne; unfold payload_keys; solve [repeat constructor]).
  destruct (parse_payload_fields_inv a p Hp) as (p1 & p2 & p3 & H1 & H2 & H3 & ->).
  rewrite lookup_put_extra in Hsome.
  destruct (extra_kwargs a !! k); [done |].
  revert Hsome. skip_statements H1 H2 H3. rewrite lookup_empty.
  by intros [? ?].
Qed.

Lemma payload_keys_bound_witness :
  ∃ p, builds (call None (Some "news") (PStr "hi") PNone PNone PNone PNone
                 {["mutable_content" := PBool true]}) p
       ∧ is_Some (p !! "mutable_content")
       ∧ ("mutable_content" ∈ payload_keys
          ∨ is_Some (extra_kwargs
                       (call None (Some "news") (PStr "hi") PNone PNone PNone
                          PNone {["mutable_content" := PBool true]})
                     !! "mutable_content")).
Proof.
  eexists. split; [apply builds_iff; reflexivity |].
  match goal with
  | |- is_Some (?p !! _) ∧ _ =>
      assert (is_Some (p !! "mutable_content")) as Hsome
        by (vm_compute; eauto);
      split; [exact Hsome |];
      apply (payload_keys_bound
               (call None (Some "news") (PStr "hi") PNone PNone PNone PNone
                  {["mutable_content" := PBool true]})
               p "mutable_content");
        [apply builds_iff; reflexivity | exact Hsome]
  end.
Defined.

(** X11: of the two keys [notification] and [content_available], the
    statements of [parse_payload] set exactly one: with a message body the
    payload holds the notification object and no [content_available], and
    without one it holds [content_available] set to true and no
    notification (extra keyword arguments of these names apart). *)
Theorem notification_or_content_available (a : PayloadArgs)
    (p : gmap string PyVal) :
  extra_kwargs a !! "notification" = None →
  extra_kwargs a !! "content_available" = None →
  builds a p →
  (truthy (message_body a) = true
   ∧ p !! "notification" = Some (PDict (notification a))
   ∧ p !! "content_available" = None)
  ∨ (truthy (message_body a) = false
     ∧ p !! "notification" = None
     ∧ p !! "content_available" = Some (PBool true)).
Proof.
  intros Hxn Hxc [Hp _].
  rewrite (lookup_payload_late a p "notification" Hp) by (by left).
  rewrite (lookup_payload_late a p "content_available" Hp) by (by right).
  rewrite Hxn, Hxc. unfold put_notification.
  destruct (truthy (message_body a)); [left | right];
    (split; [done |]); split;
    first [ by rewrite lookup_insert_eq
          | by rewrite lookup_insert_ne, lookup_empty ].
Qed.

Lemma notification_or_content_available_witness :
  ∃ p, builds (call None (Some "news") (PStr "hi") PNone PNone PNone PNone ∅) p
       ∧ is_Some (p !! "notification")
       ∧ p !! "content_available" = None.
Proof.
  eexists. split; [apply builds_iff; reflexivity |].
  match goal with
  | |- is_Some (?p !! _) ∧ _ =>
      destruct (notification_or_content_available
                  (call None (Some "news") (PStr "hi") PNone PNone PNone PNone ∅)
                  p)
        as [(_ & Hn & Hc) | (Hb & _)];
        [reflexivity | reflexivity | apply builds_iff; reflexivity | |]
  end.
  - split; [rewrite Hn; eauto | exact Hc].
  - discriminate Hb.
Defined.

(** * Further properties of the response parser *)

(** X12: an answer whose [content-length] header is not a numeral makes
    [parse_response] raise [ValueError], whatever its body is. *)
Theorem parse_response_bad_length (int_of_str : string → option Z)
    (response : Response) (v : string) :
  headers response !! "content-length" = Some v →
  int_of_str v = None →
  parse_response int_of_str response = Raise ValueError.
Proof.
  intros Hv Hn. unfold parse_response, py_int. by rewrite Hv, Hn.
Qed.

Lemma parse_response_bad_length_witness :
  parse_response int_of_decimal
    {| status_code := 200;
       headers := {["content-length" := "many"]};
       text := "{...}";
       json := Return (PDict counters) |}
  = Raise ValueError.
Proof.
  apply (parse_response_bad_length int_of_decimal _ "many"); reflexivity.
Defined.

(** X13: for an answer that does not declare an empty body, a body that
    decodes to a JSON value other than an object (a list, a string, a
    number, [null]) makes [parse_response] raise [AttributeError], and a
    body that does not decode makes it raise what [response.json()]
    raises. *)
Theorem parse_response_bad_body (int_of_str : string → option Z)
    (response : Response) :
  body_expected int_of_str response →
  (∀ v, json response = Return v → isinstance_dict v = false →
        parse_response int_of_str response = Raise AttributeError)
  ∧ (∀ e, json response = Raise e →
          parse_response int_of_str response = Raise e).
Proof.
  intros Hbody.
  assert (∀ k : bool → Outcome PyVal,
            (match headers response !! "content-length" with
             | Some v => n ← py_int int_of_str v; Return (n <=? 0)%Z
             | None => Return false
             end ≫= k) = k false) as Hskip.
  { intros k. unfold py_int.
    destruct Hbody as [-> | (v & n & -> & -> & Hpos)]; [done |].
    unfold mbind, Outcome_bind. by destruct (Z.leb_spec n 0); [lia |]. }
  split.
  - intros v Hjson Hv. unfold parse_response. rewrite Hskip, Hjson.
    by destruct v.
  - intros e Hjson. unfold parse_response. by rewrite Hskip, Hjson.
Qed.

Lemma parse_response_bad_body_witness :
  parse_response int_of_decimal
    {| status_code := 200;
       headers := ∅;
       text := "[]";
       json := Return (PList []) |}
  = Raise AttributeError.
Proof.
  refine (proj1 (parse_response_bad_body int_of_decimal _ _) (PList []) _ _);
    [left |..]; reflexivity.
Defined.

(** X14: whatever the answer, a value that [parse_response] returns is the
    empty dictionary or a dictionary with exactly the five keys
    [multicast_id], [success], [failure], [canonical_ids] and
    [results]. *)
Theorem parse_response_shape (int_of_str : string → option Z)
    (response : Response) (v : PyVal) :
  parse_response int_of_str response = Return v →
  v = PDict ∅
  ∨ ∃ res, v = PDict res
           ∧ dom res = {["multicast_id"; "success"; "failure"; "canonical_ids";
                         "results"]}.
Proof.
  unfold parse_response, py_int. intros Hv.
  destruct (match headers response !! "content-length" with
            | Some s => _
            | None => _
            end) as [[|] | e]; unfold mbind, Outcome_bind in Hv;
    [left; by simplify_eq | | discriminate].
  destruct (json response) as [parsed | e]; [| discriminate].
  destruct parsed; try discriminate. cbn [py_get] in Hv.
  right. eexists. split; [by simplify_eq |].
  rewrite !dom_insert_L, dom_empty_L. set_solver.
Qed.

Lemma parse_response_shape_witness :
  ∃ v, parse_response int_of_decimal topic_ok = Return v
       ∧ (v = PDict ∅
          ∨ ∃ res, v = PDict res
                   ∧ dom res = {["multicast_id"; "success"; "failure";
                                 "canonical_ids"; "results"]}).
Proof.
  eexists. split; [reflexivity |].
  apply (parse_response_shape int_of_decimal topic_ok). reflexivity.
Defined.

(** * Further properties of the transport *)

Section transport_properties.
Variable int_of_str : string → option Z.
Variable fcm_server : list Request → Request → Outcome Response.
Variable self : BaseAPI.

(** What [receive] does, case by case. *)
Lemma receive_eq (payload : string) (sent : list Request) :
  receive fcm_server self payload sent =
  match fcm_server sent (direct_request self payload) with
  | Return r =>
      if truthy (proxies_val (FCM_REQ_PROXIES self))
      then (fcm_server (sent ++ [direct_request self payload])%list
              (proxied_request self payload),
            (sent ++ [direct_request self payload;
                      proxied_request self payload])%list)
      else (Return r, (sent ++ [direct_request self payload])%list)
  | Raise e => (Raise e, (sent ++ [direct_request self payload])%list)
  end.
Proof.
  unfold receive, requests_post, direct_request, proxied_request.
  unfold mbind, Net_bind, mret, Net_ret.
  destruct (fcm_server sent _) as [r | e]; [| done].
  destruct (truthy (proxies_val (FCM_REQ_PROXIES self))); [| done].
  by rewrite <- app_assoc.
Qed.

(** The loop body leaves the request log as [receive] left it. *)
Lemma send_payload_log (payload : string) (sent : list Request) :
  snd (send_payload int_of_str fcm_server self payload sent)
  = snd (receive fcm_server self payload sent).
Proof.
  unfold send_payload. unfold mbind, Net_bind, mret, Net_ret.
  destruct (receive fcm_server self payload sent) as [[r | e] sent']; [| done].
  unfold classify, raise, lift. unfold mbind, Net_bind, mret, Net_ret.
  repeat (destruct (_ =? _)%Z; [done |]); try done.
  destruct (status_code r =? 200)%Z; [| by repeat case_match].
  by destruct (parse_response int_of_str r).
Qed.
End transport_properties.

(** X15: payloads after the first play no part: [send_request] gives the
    same result, and sends the same requests, whatever follows the first
    payload in the list. *)
Theorem send_request_ignores_rest (int_of_str : string → option Z)
    (fcm_server : list Request → Request → Outcome Response)
    (self : BaseAPI) (payload : string) (rest rest' : list string)
    (sent : list Request) :
  send_request int_of_str fcm_server self (payload :: rest) sent
  = send_request int_of_str fcm_server self (payload :: rest') sent.
Proof.
  rewrite (send_request_first_only _ _ _ _ rest).
  by rewrite (send_request_first_only _ _ _ _ rest').
Qed.

(** The requests that a call on a non-empty list adds to the log. *)
Lemma send_request_sent (int_of_str : string → option Z)
    (fcm_server : list Request → Request → Outcome Response)
    (self : BaseAPI) (payload : string) (rest : list string)
    (sent : list Request) :
  snd (send_request int_of_str fcm_server self (payload :: rest) sent)
  = (sent ++ direct_request self payload
       :: match fcm_server sent (direct_request self payload) with
          | Return _ =>
              if truthy (proxies_val (FCM_REQ_PROXIES self))
              then [proxied_request self payload]
              else []
          | Raise _ => []
          end)%list.
Proof.
  rewrite send_request_first_only.
  pose proof (send_payload_log int_of_str fcm_server self payload sent) as Hlog.
  unfold send_request. cbn [for_each]. unfold mbind, Net_bind, mret, Net_ret.
  destruct (send_payload int_of_str fcm_server self payload sent)
    as [[[v|] | e] sent'];
    cbn [snd] in *; rewrite Hlog, receive_eq;
    destruct (fcm_server sent (direct_request self payload)); try done;
    by destruct (truthy (proxies_val (FCM_REQ_PROXIES self))).
Qed.

(** X16: the requests of one call.  On an empty list [send_request] sends
    nothing and returns [None].  On a non-empty list it posts the first
    payload to the end point with the client's headers, once when the
    client has no proxies or the post fails, and a second time through the
    proxies when it has proxies and the first post was answered; it sends
    nothing else. *)
Theorem send_request_log (int_of_str : string → option Z)
    (fcm_server : list Request → Request → Outcome Response)
    (self : BaseAPI) (payload : string) (rest : list string)
    (sent : list Request) :
  send_request int_of_str fcm_server self [] sent = (Return PNone, sent)
  ∧ snd (send_request int_of_str fcm_server self (payload :: rest) sent)
    = (sent ++ direct_request self payload
         :: match fcm_server sent (direct_request self payload) with
            | Return _ =>
                if truthy (proxies_val (FCM_REQ_PROXIES self))
                then [proxied_request self payload]
                else []
            | Raise _ => []
            end)%list.
Proof.
  split; [reflexivity | apply send_request_sent].
Qed.

(** X17: with proxies, the answer to the direct post is thrown away: the
    answer that [send_request] goes on with is the one to the second post,
    made through the proxies after the first. *)
Theorem receive_through_proxies
    (fcm_server : list Request → Request → Outcome Response)
    (self : BaseAPI) (payload : string) (sent : list Request) (r1 : Response) :
  truthy (proxies_val (FCM_REQ_PROXIES self)) = true →
  fcm_server sent (direct_request self payload) = Return r1 →
  receive fcm_server self payload sent
  = (fcm_server (sent ++ [direct_request self payload])%list
       (proxied_request self payload),
     (sent ++ [direct_request self payload; proxied_request self payload])%list).
Proof.
  intros Hprox Hr1. by rewrite receive_eq, Hr1, Hprox.
Qed.

Lemma receive_through_proxies_witness :
  fst (receive (first_then unauthorized counted_ok) proxied_client "{}" [])
  = Return counted_ok.
Proof.
  rewrite (receive_through_proxies (first_then unauthorized counted_ok)
             proxied_client "{}" [] unauthorized);
    reflexivity.
Defined.

(** X18: when the first post fails, [send_request] raises what the HTTP
    client raised, after that one request and without a second post, with
    or without proxies. *)
Theorem send_request_transport_failure (int_of_str : string → option Z)
    (fcm_server : list Request → Request → Outcome Response)
    (self : BaseAPI) (payload : string) (rest : list string)
    (sent : list Request) (e : PyErr) :
  fcm_server sent (direct_request self payload) = Raise e →
  send_request int_of_str fcm_server self (payload :: rest) sent
  = (Raise e, (sent ++ [direct_request self payload])%list).
Proof.
  intros He. unfold send_request. cbn [for_each].
  unfold send_payload. unfold mbind, Net_bind, mret, Net_ret.
  by rewrite receive_eq, He.
Qed.

Lemma send_request_transport_failure_witness :
  send_request int_of_decimal (after_failure counted_ok) proxied_client
    ["{}"; "{}"] []
  = (Raise TransportError, [direct_request proxied_client "{}"]).
Proof.
  apply (send_request_transport_failure int_of_decimal
           (after_failure counted_ok) proxied_client "{}" ["{}"] []).
  reflexivity.
Defined.

(** X19: [send_request] returns a value for a payload only on a status of
    200, and the value is the one [parse_response] returns for that
    answer. *)
Theorem send_request_returns_on_200 (int_of_str : string → option Z)
    (fcm_server : list Request → Request → Outcome Response)
    (self : BaseAPI) (payload : string) (rest : list string)
    (sent : list Request) (v : PyVal) :
  fst (send_request int_of_str fcm_server self (payload :: rest) sent)
  = Return v →
  ∃ r sent', receive fcm_server self payload sent = (Return r, sent')
             ∧ status_code r = 200%Z
             ∧ parse_response int_of_str r = Return v.
Proof.
  unfold send_request. cbn [for_each]. unfold send_payload.
  unfold mbind, Net_bind, mret, Net_ret.
  destruct (receive fcm_server self payload sent) as [[r | e] sent'];
    [| discriminate].
  unfold classify, raise, lift. unfold mbind, Net_bind, mret, Net_ret.
  destruct (Z.eqb_spec (status_code r) 200) as [H200 | H200].
  - destruct (parse_response int_of_str r) as [parsed | e] eqn:Hparsed;
      [| discriminate].
    cbn [fst]. intros [= <-]. by exists r, sent'.
  - by repeat case_match.
Qed.

Lemma send_request_returns_on_200_witness :
  ∃ r sent', receive (always empty_ok) direct_client "{}" [] = (Return r, sent')
             ∧ status_code r = 200%Z
             ∧ parse_response int_of_decimal r = Return (PDict ∅).
Proof.
  apply (send_request_returns_on_200 int_of_decimal (always empty_ok)
           direct_client "{}" [] [] (PDict ∅)).
  reflexivity.
Defined.

(** * Further properties of the chunking *)

Section chunk_positions.
Context {A : Type}.
Variable k : nat.
Hypothesis k_pos : 0 < k.

Lemma xrange_from_lookup (fuel start stop i : nat) :
  stop - start ≤ fuel →
  start + i * k < stop →
  xrange_from fuel start stop k !! i = Some (start + i * k).
Proof.
  revert start i. induction fuel as [|fuel IH]; intros start i Hfuel Hi.
  - lia.
  - cbn [xrange_from].
    destruct (Nat.ltb_spec start stop) as [Hlt | Hge]; [| lia].
    destruct i as [|i]; [cbn; f_equal; lia |].
    cbn [lookup list_lookup]. rewrite IH by lia. f_equal. lia.
Qed.

Lemma ceil_div_gt (n i : nat) : i < ceil_div n k → i * k < n.
Proof.
  unfold ceil_div. intros Hi.
  pose proof (Nat.Div0.mul_div_le (n + (k - 1)) k) as Hle. nia.
Qed.
End chunk_positions.

(** The chunk at a position. *)
Lemma registration_id_chunks_lookup {A} (ids : list A) (i : nat) :
  i < length (registration_id_chunks ids) →
  i * FCM_MAX_RECIPIENTS < length ids
  ∧ registration_id_chunks ids !! i
    = Some (take FCM_MAX_RECIPIENTS (drop (i * FCM_MAX_RECIPIENTS) ids)).
Proof.
  pose proof FCM_MAX_RECIPIENTS_pos as Hpos.
  rewrite registration_id_chunks_length. intros Hi.
  pose proof (ceil_div_gt _ Hpos _ _ Hi) as Hlt.
  split; [done |].
  unfold registration_id_chunks, xrange. rewrite list_lookup_fmap.
  rewrite (xrange_from_lookup _ Hpos) by lia. cbn [fmap option_fmap option_map].
  unfold slice. do 2 f_equal. lia.
Qed.

(** X20: the chunks are the successive windows of 1000 ids: the chunk
    number [i] (from 0) is the slice of the list from position [1000 * i]
    to [1000 * i + 1000], and every chunk but the last holds exactly 1000
    ids. *)
Theorem registration_id_chunk_at {A} (ids : list A) (i : nat) :
  i < length (registration_id_chunks ids) →
  registration_id_chunks ids !! i
  = Some (take FCM_MAX_RECIPIENTS (drop (i * FCM_MAX_RECIPIENTS) ids))
  ∧ (S i < length (registration_id_chunks ids) →
     length (take FCM_MAX_RECIPIENTS (drop (i * FCM_MAX_RECIPIENTS) ids))
     = FCM_MAX_RECIPIENTS).
Proof.
  intros Hi. split; [by apply registration_id_chunks_lookup |].
  intros Hnext.
  destruct (registration_id_chunks_lookup ids (S i) Hnext) as [Hlt _].
  rewrite length_take, length_drop. lia.
Qed.

Lemma registration_id_chunk_at_witness :
  registration_id_chunks (replicate 2500 "id") !! 1
  = Some (take FCM_MAX_RECIPIENTS
            (drop (1 * FCM_MAX_RECIPIENTS) (replicate 2500 "id")))
  ∧ length (take FCM_MAX_RECIPIENTS
              (drop (1 * FCM_MAX_RECIPIENTS) (replicate 2500 "id")))
    = FCM_MAX_RECIPIENTS.
Proof.
  assert (length (registration_id_chunks (replicate 2500 "id")) = 3) as Hlen
    by (vm_compute; reflexivity).
  destruct (registration_id_chunk_at (replicate 2500 "id") 1) as [Hat Hfull];
    [rewrite Hlen; lia |].
  split; [exact Hat | apply Hfull; rewrite Hlen; lia].
Defined.

(** X21: a list of at least one and at most 1000 ids goes out whole, as
    the only chunk. *)
Theorem registration_id_chunks_within_limit {A} (ids : list A) :
  1 ≤ length ids ≤ FCM_MAX_RECIPIENTS →
  registration_id_chunks ids = [ids].
Proof.
  pose proof FCM_MAX_RECIPIENTS_pos as Hpos. intros Hlen.
  assert (length (registration_id_chunks ids) = 1) as Hone.
  { rewrite registration_id_chunks_length. apply ceil_div_one; lia. }
  destruct (registration_id_chunks_lookup ids 0) as [_ Hat]; [lia |].
  rewrite drop_0, take_ge in Hat by lia.
  destruct (registration_id_chunks ids) as [|c [|c' l]]; simplify_eq/=; done.
Qed.

Lemma registration_id_chunks_within_limit_witness :
  registration_id_chunks ["abc"; "def"] = [["abc"; "def"]].
Proof.
  apply registration_id_chunks_within_limit.
  unfold FCM_MAX_RECIPIENTS. simpl. lia.
Defined.

(** X22: every request that a call of [send_request] sends goes to the FCM
    end point, carries the first payload of the list as its body, and has
    exactly two headers: [Content-Type: application/json] and
    [Authorization: key=] followed by the client's API key. *)
Theorem send_request_requests (int_of_str : string → option Z)
    (fcm_server : list Request → Request → Outcome Response)
    (self : BaseAPI) (payload : string) (rest : list string)
    (sent : list Request) (req : Request) :
  req ∈ drop (length sent)
          (snd (send_request int_of_str fcm_server self (payload :: rest) sent)) →
  url req = FCM_END_POINT
  ∧ data req = payload
  ∧ request_hdrs req !! "Content-Type" = Some CONTENT_TYPE
  ∧ request_hdrs req !! "Authorization" = Some ("key=" ++ _FCM_API_KEY self)
  ∧ dom (request_hdrs req) = {["Content-Type"; "Authorization"]}.
Proof.
  rewrite send_request_sent, drop_app_length.
  assert (∀ r, request_hdrs r = request_headers self →
               request_hdrs r !! "Content-Type" = Some CONTENT_TYPE
               ∧ request_hdrs r !! "Authorization"
                 = Some ("key=" ++ _FCM_API_KEY self)
               ∧ dom (request_hdrs r) = {["Content-Type"; "Authorization"]})
    as Hheaders.
  { intros r ->. unfold request_headers. split; [| split].
    - by rewrite lookup_insert_eq.
    - by rewrite lookup_insert_ne, lookup_insert_eq.
    - rewrite !dom_insert_L, dom_empty_L. set_solver. }
  intros Hin.
  assert (req = direct_request self payload
          ∨ req = proxied_request self payload) as [-> | ->].
  { apply elem_of_cons in Hin as [-> | Hin]; [by left |].
    destruct (fcm_server sent (direct_request self payload));
      [| by apply elem_of_nil in Hin].
    destruct (truthy (proxies_val (FCM_REQ_PROXIES self)));
      [| by apply elem_of_nil in Hin].
    apply list_elem_of_singleton in Hin. by right. }
  - do 2 (split; [reflexivity |]). by apply Hheaders.
  - do 2 (split; [reflexivity |]). by apply Hheaders.
Qed.

Lemma send_request_requests_witness :
  direct_request direct_client "{}"
    ∈ drop (length (@nil Request))
        (snd (send_request int_of_decimal (always counted_ok) direct_client
                ["{}"] []))
  ∧ request_hdrs (direct_request direct_client "{}") !! "Authorization"
    = Some "key=secret".
Proof.
  assert (direct_request direct_client "{}"
            ∈ drop (length (@nil Request))
                (snd (send_request int_of_decimal (always counted_ok)
                        direct_client ["{}"] []))) as Hin
    by (vm_compute; constructor).
  split; [exact Hin |].
  destruct (send_request_requests int_of_decimal (always counted_ok)
              direct_client "{}" [] [] _ Hin) as (_ & _ & _ & Hauth & _).
  exact Hauth.
Defined.
